(** * CoWork Manager API: a shallow embedding of [main.py]

    The module keeps two dictionaries ([salas], [reservas]) and two id
    counters as globals; eight route handlers read and mutate them and
    signal failures by raising [HTTPException].

    The embedding follows the source statement by statement:
    - Python [int] is [Z]; Python [str] is [string], one character per
      code point, covering the code points below 256 (on that range
      [str.lower] works character by character);
    - a [dict] is an association list in insertion order with unique keys;
    - the globals are one record [State], threaded through a state monad
      in which a raised exception keeps the state reached so far, as in
      Python: nothing is rolled back when a handler raises;
    - [datetime.fromisoformat] and the ordering of [datetime] values belong
      to the Python standard library; [Module Datetime] follows their C
      implementation in CPython 3.11. *)

From Stdlib Require Import ZArith List String Ascii Bool Lia Sorted.
Import ListNotations.
Local Open Scope string_scope.
Local Open Scope list_scope.
Local Open Scope Z_scope.

(** ** Python [str] methods used by the handlers *)

Module Str.

(** [str.isspace] of one character, for code points below 256:
    TAB..CR, FS..US, SPACE, NEL (0x85) and NBSP (0xA0). *)
Definition isspace (c : ascii) : bool :=
  let n := Z.of_nat (nat_of_ascii c) in
  ((9 <=? n) && (n <=? 13)) || ((28 <=? n) && (n <=? 32))
  || (n =? 133) || (n =? 160).

Fixpoint lstrip (s : string) : string :=
  match s with
  | EmptyString => EmptyString
  | String c s' => if isspace c then lstrip s' else s
  end.

(** Drops trailing whitespace: a character is kept when it is not a
    space or when something is left after it. *)
Fixpoint rstrip (s : string) : string :=
  match s with
  | EmptyString => EmptyString
  | String c s' =>
      match rstrip s' with
      | EmptyString => if isspace c then EmptyString else String c EmptyString
      | r => String c r
      end
  end.

(** [s.strip()] *)
Definition strip (s : string) : string := rstrip (lstrip s).

(** Lower-casing of one character below 256: A..Z, and the upper-case
    Latin-1 letters 0xC0..0xDE except the multiplication sign 0xD7. *)
Definition lower_char (c : ascii) : ascii :=
  let n := Z.of_nat (nat_of_ascii c) in
  if ((65 <=? n) && (n <=? 90))
     || ((192 <=? n) && (n <=? 222) && negb (n =? 215))
  then ascii_of_nat (Z.to_nat (n + 32))
  else c.

(** [s.lower()] *)
Fixpoint lower (s : string) : string :=
  match s with
  | EmptyString => EmptyString
  | String c s' => String (lower_char c) (lower s')
  end.

(** [len(s)] *)
Definition len (s : string) : Z := Z.of_nat (String.length s).

End Str.

(** ** The standard library's [datetime] *)

Module Datetime.

(** A [datetime] object. [tzinfo] is [None] for a naive value and the
    UTC offset in microseconds for an aware one. *)
Record datetime : Type := mk_datetime {
  year : Z; month : Z; day : Z;
  hour : Z; minute : Z; second : Z; microsecond : Z;
  tzinfo : option Z
}.

Definition is_leap (y : Z) : bool :=
  (y mod 4 =? 0) && (negb (y mod 100 =? 0) || (y mod 400 =? 0)).

Definition days_in_month (y m : Z) : Z :=
  if m =? 2 then (if is_leap y then 29 else 28)
  else if (m =? 4) || (m =? 6) || (m =? 9) || (m =? 11) then 30
  else 31.

Definition days_before_year (y : Z) : Z :=
  let y' := y - 1 in y' * 365 + y' / 4 - y' / 100 + y' / 400.

Definition days_before_month (y m : Z) : Z :=
  nth (Z.to_nat m) [0; 0; 31; 59; 90; 120; 151; 181; 212; 243; 273; 304; 334] 0
  + (if (2 <? m) && is_leap y then 1 else 0).

(** Proleptic Gregorian ordinal; 0001-01-01 is day 1. *)
Definition ymd2ord (y m d : Z) : Z :=
  days_before_year y + days_before_month y m + d.

(** Microseconds of the wall-clock fields since the start of day 0. *)
Definition wall_micros (d : datetime) : Z :=
  (((ymd2ord (year d) (month d) (day d) * 24 + hour d) * 60
    + minute d) * 60 + second d) * 1000000 + microsecond d.

(** [a <= b].  Two naive values compare by their fields, two aware
    values by their UTC instants; a naive and an aware value cannot be
    ordered and Python raises [TypeError], here [None]. *)
Definition le (a b : datetime) : option bool :=
  match tzinfo a, tzinfo b with
  | None, None => Some (wall_micros a <=? wall_micros b)
  | Some oa, Some ob => Some (wall_micros a - oa <=? wall_micros b - ob)
  | _, _ => None
  end.

(** *** Parsing

    [datetime.fromisoformat] as CPython 3.11 implements it in C.  The
    C code works on the UTF-8 bytes of the string, which end with a NUL
    byte, and moves a pointer over them; here the bytes are a list, a
    pointer is an index into it, and reading at or after the end gives
    the NUL byte. *)

Definition NUL : ascii := ascii_of_nat 0.

(** The UTF-8 bytes of a string of code points below 256. *)
Fixpoint utf8 (s : string) : list ascii :=
  match s with
  | EmptyString => []
  | String c s' =>
      let n := nat_of_ascii c in
      if (n <? 128)%nat then c :: utf8 s'
      else ascii_of_nat (192 + n / 64) :: ascii_of_nat (128 + n mod 64)
             :: utf8 s'
  end.

(** [buf[i]] *)
Definition byte_at (buf : list ascii) (i : nat) : ascii := nth i buf NUL.

Definition digit (c : ascii) : option Z :=
  let n := Z.of_nat (nat_of_ascii c) in
  if (48 <=? n) && (n <=? 57) then Some (n - 48) else None.

Definition is_digit (c : ascii) : bool :=
  match digit c with Some _ => true | None => false end.

(** [parse_digits]: reads [num_digits] digits from [p] on top of [var];
    gives the number and the pointer after them. *)
Fixpoint parse_digits (buf : list ascii) (p : nat) (var : Z) (num_digits : nat)
  : option (Z * nat) :=
  match num_digits with
  | O => Some (var, p)
  | S n =>
      match digit (byte_at buf p) with
      | Some v => parse_digits buf (S p) (var * 10 + v) n
      | None => None
      end
  end.

(** [while (is_digit( *p )) ++p], over at most [fuel] bytes. *)
Fixpoint skip_digits (buf : list ascii) (fuel p : nat) : nat :=
  match fuel with
  | O => p
  | S fuel' => if is_digit (byte_at buf p) then skip_digits buf fuel' (S p) else p
  end.

(** [weekday]: 0 for Monday; the remainder is C's, towards zero. *)
Definition weekday (y m d : Z) : Z := Z.rem (ymd2ord y m d + 6) 7.

(** [iso_week1_monday]: ordinal of the Monday that starts ISO week 1. *)
Definition iso_week1_monday (y : Z) : Z :=
  let first_day := ymd2ord y 1 1 in
  let first_weekday := Z.rem (first_day + 6) 7 in
  let week1_monday := first_day - first_weekday in
  if 3 <? first_weekday then week1_monday + 7 else week1_monday.

Definition table_days_before_month : list Z :=
  [0; 0; 31; 59; 90; 120; 151; 181; 212; 243; 273; 304; 334].

Definition table_days_in_month : list Z :=
  [0; 31; 28; 31; 30; 31; 30; 31; 31; 30; 31; 30; 31].

(** [ord_to_ymd], with C's division and remainder.  For an ordinal below
    1, which only a week date of year 0000 gives, the C code indexes its
    tables with a month below 1; the entry read there is taken as 0 here.
    Whatever it is, the month that comes out is below 1 and the
    constructor refuses it. *)
Definition ord_to_ymd (ordinal : Z) : Z * Z * Z :=
  let ordinal := ordinal - 1 in
  let n400 := Z.quot ordinal 146097 in
  let n := Z.rem ordinal 146097 in
  let n100 := Z.quot n 36524 in
  let n := Z.rem n 36524 in
  let n4 := Z.quot n 1461 in
  let n := Z.rem n 1461 in
  let n1 := Z.quot n 365 in
  let n := Z.rem n 365 in
  let y := n400 * 400 + 1 + n100 * 100 + n4 * 4 + n1 in
  if (n1 =? 4) || (n100 =? 4) then (y - 1, 12, 31)
  else
    let leapyear := (n1 =? 3) && (negb (n4 =? 24) || (n100 =? 3)) in
    let m := Z.shiftr (n + 50) 5 in
    let preceding :=
      nth (Z.to_nat m) table_days_before_month 0
      + (if (2 <? m) && leapyear then 1 else 0) in
    if n <? preceding then
      let m := m - 1 in
      let preceding :=
        preceding - (nth (Z.to_nat m) table_days_in_month 0
                     + (if (m =? 2) && is_leap y then 1 else 0)) in
      (y, m, n - preceding + 1)
    else (y, m, n - preceding + 1).

(** [iso_to_ymd]: year, ISO week and ISO day to year, month and day. *)
Definition iso_to_ymd (iso_year iso_week iso_day : Z) : option (Z * Z * Z) :=
  let week_ok :=
    if (iso_week <=? 0) || (53 <=? iso_week) then
      (iso_week =? 53)
      && (let first_weekday := weekday iso_year 1 1 in
          (first_weekday =? 3) || ((first_weekday =? 2) && is_leap iso_year))
    else true in
  if negb week_ok then None
  else if (iso_day <=? 0) || (8 <=? iso_day) then None
  else
    let day_1 := iso_week1_monday iso_year in
    let day_offset := (iso_week - 1) * 7 + iso_day - 1 in
    Some (ord_to_ymd (day_1 + day_offset)).

Definition is_char (c : ascii) (x : ascii) : bool := Ascii.eqb c x.

(** The loop [for (idx = 7; idx < len; ++idx) if (!is_digit(dtstr[idx])) break]. *)
Fixpoint scan_digits (buf : list ascii) (len fuel idx : nat) : nat :=
  match fuel with
  | O => idx
  | S fuel' =>
      if (idx <? len)%nat && is_digit (byte_at buf idx)
      then scan_digits buf len fuel' (S idx)
      else idx
  end.

(** [_find_isoformat_datetime_separator]: where the date part ends, from
    the bytes at 4, 5, 8 and 10; -1 when there is no such place. *)
Definition find_isoformat_datetime_separator (buf : list ascii) (len : nat) : Z :=
  if (len =? 7)%nat then 7
  else if is_char (byte_at buf 4) "-" then
    if is_char (byte_at buf 5) "W" then
      if (len <? 8)%nat then -1
      else if (8 <? len)%nat && is_char (byte_at buf 8) "-" then
        if (len =? 9)%nat then -1
        else if (10 <? len)%nat && is_digit (byte_at buf 10) then 8
        else 10
      else 8
    else 10
  else if is_char (byte_at buf 4) "W" then
    let idx := scan_digits buf len len 7 in
    if (idx <? 9)%nat then Z.of_nat idx
    else if Nat.even idx then 7 else 8
  else 8.

(** [parse_isoformat_date]: [YYYY-MM-DD], [YYYYMMDD], [YYYY-Www[-D]] or
    [YYYYWww[D]]; [len] is the separator location as an unsigned number,
    so that -1 is above every pointer. *)
Definition parse_isoformat_date (buf : list ascii) (len : Z)
  : option (Z * Z * Z) :=
  match parse_digits buf 0 0 4 with
  | None => None
  | Some (y, p) =>
      let uses_separator := is_char (byte_at buf p) "-" in
      let p := if uses_separator then S p else p in
      if is_char (byte_at buf p) "W" then
        match parse_digits buf (S p) 0 2 with
        | None => None
        | Some (iso_week, p) =>
            if (len <? 0) || (Z.of_nat p <? len) then
              if uses_separator && negb (is_char (byte_at buf p) "-") then None
              else
                let p := if uses_separator then S p else p in
                match parse_digits buf p 0 1 with
                | None => None
                | Some (iso_day, _) => iso_to_ymd y iso_week iso_day
                end
            else iso_to_ymd y iso_week 1
        end
      else
        match parse_digits buf p 0 2 with
        | None => None
        | Some (m, p) =>
            if uses_separator && negb (is_char (byte_at buf p) "-") then None
            else
              let p := if uses_separator then S p else p in
              match parse_digits buf p 0 2 with
              | None => None
              | Some (d, _) => Some (y, m, d)
              end
        end
  end.

(** One round of the loop of [parse_hh_mm_ss_ff]. *)
Inductive round : Type :=
| Fail
| Return (v : Z) (more : bool)
| Continue (v : Z) (has_separator : bool) (p : nat)
| Break (v : Z) (p : nat).

Definition hms_round (buf : list ascii) (p_end : nat)
  (first has_separator : bool) (p : nat) : round :=
  match parse_digits buf p 0 2 with
  | None => Fail
  | Some (v, p) =>
      let c := byte_at buf p in
      let p := S p in
      let has_separator := if first then is_char c ":" else has_separator in
      if (p_end <=? p)%nat then Return v (negb (is_char c NUL))
      else if has_separator && is_char c ":" then Continue v has_separator p
      else if is_char c "." || is_char c "," then Break v p
      else if negb has_separator then Continue v has_separator (pred p)
      else Fail
  end.

(** The fraction: at most six digits are read, fewer are scaled up to
    microseconds, more are skipped. *)
Definition parse_fraction (buf : list ascii) (p p_end : nat) (h m s : Z)
  : option (Z * Z * Z * Z * bool) :=
  let len_remains := (p_end - p)%nat in
  let to_parse := Nat.min len_remains 6 in
  match parse_digits buf p 0 to_parse with
  | None => None
  | Some (us, p) =>
      let us := us * 10 ^ Z.of_nat (6 - to_parse) in
      let p := skip_digits buf (List.length buf) p in
      Some (h, m, s, us, negb (is_char (byte_at buf p) NUL))
  end.

(** [parse_hh_mm_ss_ff] on the bytes from [tstr] to [tstr_end]:
    [HH[:MM[:SS]]] or [HH[MM[SS]]] and a fraction after [.] or [,].  The
    boolean tells that the byte where it stopped is not NUL. *)
Definition parse_hh_mm_ss_ff (buf : list ascii) (tstr tstr_end : nat)
  : option (Z * Z * Z * Z * bool) :=
  match hms_round buf tstr_end true true tstr with
  | Fail => None
  | Return h more => Some (h, 0, 0, 0, more)
  | Break h p => parse_fraction buf p tstr_end h 0 0
  | Continue h sep p =>
      match hms_round buf tstr_end false sep p with
      | Fail => None
      | Return m more => Some (h, m, 0, 0, more)
      | Break m p => parse_fraction buf p tstr_end h m 0
      | Continue m sep p =>
          match hms_round buf tstr_end false sep p with
          | Fail => None
          | Return s more => Some (h, m, s, 0, more)
          | Break s p | Continue s _ p => parse_fraction buf p tstr_end h m s
          end
      end
  end.

Definition is_tz_start (c : ascii) : bool :=
  is_char c "Z" || is_char c "+" || is_char c "-".

(** The loop [do { ... } while (++tzinfo_pos < p_end)]: the first of
    [Z], [+], [-] from [p] on, or where the loop ran out. *)
Fixpoint find_tzinfo (buf : list ascii) (p_end fuel p : nat) : nat :=
  if is_tz_start (byte_at buf p) then p
  else
    match fuel with
    | O => S p
    | S fuel' => if (S p <? p_end)%nat then find_tzinfo buf p_end fuel' (S p) else S p
    end.

(** [parse_isoformat_time]: the time, and the offset as seconds and
    microseconds when there is one. *)
Definition parse_isoformat_time (buf : list ascii) (p p_end : nat)
  : option (Z * Z * Z * Z * option (Z * Z)) :=
  let tzinfo_pos := find_tzinfo buf p_end p_end p in
  match parse_hh_mm_ss_ff buf p tzinfo_pos with
  | None => None
  | Some (h, m, s, us, more) =>
      if (tzinfo_pos =? p_end)%nat then
        if more then None else Some (h, m, s, us, None)
      else if is_char (byte_at buf tzinfo_pos) "Z" then
        if is_char (byte_at buf (S tzinfo_pos)) NUL
        then Some (h, m, s, us, Some (0, 0))
        else None
      else
        let tzsign := if is_char (byte_at buf tzinfo_pos) "-" then -1 else 1 in
        match parse_hh_mm_ss_ff buf (S tzinfo_pos) p_end with
        | Some (tzh, tzm, tzs, tzus, false) =>
            Some (h, m, s, us,
                  Some (tzsign * (tzh * 3600 + tzm * 60 + tzs), tzsign * tzus))
        | _ => None
        end
  end.

(** [tzinfo_from_isoformat_results]: an offset of 0 whole seconds is UTC,
    whatever its microseconds; any other must lie strictly between -24h
    and 24h, or [timezone] raises [ValueError]. *)
Definition tzinfo_of (tz : option (Z * Z)) : option (option Z) :=
  match tz with
  | None => Some None
  | Some (tzoffset, tzusec) =>
      if tzoffset =? 0 then Some (Some 0)
      else
        let off := tzoffset * 1000000 + tzusec in
        if (- 86400000000 <? off) && (off <? 86400000000)
        then Some (Some off) else None
  end.

(** Range checks made by the [datetime] constructor. *)
Definition valid_fields (y m d hh mm ss us : Z) : bool :=
  (1 <=? y) && (y <=? 9999) && (1 <=? m) && (m <=? 12)
  && (1 <=? d) && (d <=? days_in_month y m)
  && (0 <=? hh) && (hh <=? 23) && (0 <=? mm) && (mm <=? 59)
  && (0 <=? ss) && (ss <=? 59) && (0 <=? us) && (us <=? 999999).

Definition build (ymd : Z * Z * Z) (t : Z * Z * Z * Z) (tz : option (Z * Z))
  : option datetime :=
  let '(y, m, d) := ymd in
  let '(hh, mm, ss, us) := t in
  match tzinfo_of tz with
  | None => None
  | Some tzinfo =>
      if valid_fields y m d hh mm ss us
      then Some (mk_datetime y m d hh mm ss us tzinfo)
      else None
  end.

(** How many bytes the character that starts with byte [c] takes. *)
Definition utf8_width (c : ascii) : nat :=
  let n := nat_of_ascii c in
  if (n <? 128)%nat then 1%nat
  else if (240 <=? n)%nat then 4%nat
  else if (224 <=? n)%nat then 3%nat
  else 2%nat.

(** [datetime.fromisoformat]; [None] stands for [ValueError].  A string
    of fewer than seven characters is refused at once; the character
    after the date is skipped, whatever it is. *)
Definition fromisoformat (dt_str : string) : option datetime :=
  if (String.length dt_str <? 7)%nat then None
  else
    let buf := utf8 dt_str in
    let len := List.length buf in
    let separator_location := find_isoformat_datetime_separator buf len in
    match parse_isoformat_date buf separator_location with
    | None => None
    | Some ymd =>
        if separator_location <? Z.of_nat len then
          let p := Z.to_nat separator_location in
          let p := (p + utf8_width (byte_at buf p))%nat in
          match parse_isoformat_time buf p len with
          | None => None
          | Some (h, m, s, us, tz) => build ymd (h, m, s, us) tz
          end
        else build ymd (0, 0, 0, 0) None
    end.

End Datetime.

(** ** Python [dict] *)

Module Dict.

(** Entries in insertion order.  A real dictionary has no two entries
    with one key; see [wf]. *)
Definition dict (V : Type) : Type := list (Z * V).

Definition wf {V} (d : dict V) : Prop := NoDup (map fst d).

(** [d.get(k)] *)
Fixpoint get {V} (k : Z) (d : dict V) : option V :=
  match d with
  | [] => None
  | (k', v) :: d' => if k' =? k then Some v else get k d'
  end.

(** [k in d] *)
Definition mem {V} (k : Z) (d : dict V) : bool :=
  existsb (fun kv => fst kv =? k) d.

(** [d[k] = v]: an existing key keeps its place, a new one goes last. *)
Fixpoint set {V} (k : Z) (v : V) (d : dict V) : dict V :=
  match d with
  | [] => [(k, v)]
  | (k', v') :: d' =>
      if k' =? k then (k, v) :: d' else (k', v') :: set k v d'
  end.

(** What is left of [d] without key [k]. *)
Definition remove {V} (k : Z) (d : dict V) : dict V :=
  filter (fun kv => negb (fst kv =? k)) d.

(** [del d[k]]; [None] stands for [KeyError]. *)
Definition del {V} (k : Z) (d : dict V) : option (dict V) :=
  if mem k d then Some (remove k d) else None.

(** [d.values()] and [d.items()] *)
Definition values {V} (d : dict V) : list V := map snd d.
Definition items {V} (d : dict V) : list (Z * V) := d.

End Dict.

(** ** Pydantic models *)

Module SalaCreate.
Record t : Type := mk { nombre : string; capacidad : Z; ubicacion : string }.

(** [Field(..., min_length=1)] on both strings, [Field(..., ge=1)] on the
    capacity.  The lengths are those of the strings as received. *)
Definition valid (p : t) : bool :=
  (1 <=? Str.len (nombre p)) && (1 <=? capacidad p)
  && (1 <=? Str.len (ubicacion p)).
End SalaCreate.

Module SalaOut.
Record t : Type := mk {
  id : Z; nombre : string; capacidad : Z; ubicacion : string
}.
End SalaOut.

Module ReservaCreate.
Record t : Type := mk {
  sala_id : Z; nombre_solicitante : string;
  fecha_inicio : string; fecha_fin : string
}.

(** [sala_id: Field(..., ge=1)], [nombre_solicitante: Field(..., min_length=1)];
    the two dates are plain strings. *)
Definition valid (p : t) : bool :=
  (1 <=? sala_id p) && (1 <=? Str.len (nombre_solicitante p)).
End ReservaCreate.

Module ReservaPatch.
Record t : Type := mk { fecha_fin : string }.
End ReservaPatch.

Module ReservaOut.
Record t : Type := mk {
  id : Z; sala_id : Z; nombre_solicitante : string;
  fecha_inicio : string; fecha_fin : string
}.

(** [reserva.fecha_fin = v] *)
Definition set_fecha_fin (v : string) (r : t) : t :=
  mk (id r) (sala_id r) (nombre_solicitante r) (fecha_inicio r) v.
End ReservaOut.

(** ** The in-memory database *)

Record State : Type := mkState {
  salas : Dict.dict SalaOut.t;
  reservas : Dict.dict ReservaOut.t;
  next_sala_id : Z;
  next_reserva_id : Z
}.

(** The module-level initial values. *)
Definition initial : State := mkState [] [] 1 1.

(** ** Exceptions and responses *)

(** What a request can end with instead of a response.  [HTTPException]
    carries the status code and the text under the ["error"] key of its
    detail.  [RequestValidationError] is raised by the framework when the
    body does not satisfy the pydantic model, before the handler runs.
    [TypeError] and [KeyError] are Python's own; no handler catches them. *)
Inductive exn : Type :=
| HTTPException (status_code : Z) (detail : string)
| RequestValidationError
| TypeError
| KeyError.

(** The body and status of a successful request. *)
Inductive response : Type :=
| SalaList (body : list SalaOut.t)                       (* 200 *)
| SalaDetail (body : SalaOut.t)                          (* 200 *)
| ReservaList (body : list ReservaOut.t)                 (* 200 *)
| Created (id : Z) (mensaje : string)                    (* 201 *)
| Updated (id : Z) (mensaje : string) (fecha_fin : string) (* 200 *)
| NoContent.                                             (* 204 *)

(** ** Handlers as state transformers *)

(** A computation over the globals that returns or raises; the state
    that comes out is the one reached when it returned or raised. *)
Definition M (A : Type) : Type := State -> (exn + A) * State.

Definition ret {A} (a : A) : M A := fun st => (inr a, st).

Definition raise {A} (e : exn) : M A := fun st => (inl e, st).

Definition bind {A B} (c : M A) (k : A -> M B) : M B :=
  fun st =>
    match c st with
    | (inl e, st') => (inl e, st')
    | (inr a, st') => k a st'
    end.

Definition get : M State := fun st => (inr st, st).

Definition put (st' : State) : M unit := fun _ => (inr tt, st').

Declare Scope py_scope.
Delimit Scope py_scope with py.
Notation "x <- c ;; k" := (bind c (fun x => k))
  (at level 61, c at next level, right associativity) : py_scope.
Notation "c ;; k" := (bind c (fun _ => k))
  (at level 61, right associativity) : py_scope.
Local Open Scope py_scope.

(** Assignments to the four globals. *)
Definition set_salas (d : Dict.dict SalaOut.t) : M unit :=
  st <- get ;;
  put (mkState d (reservas st) (next_sala_id st) (next_reserva_id st)).

Definition set_reservas (d : Dict.dict ReservaOut.t) : M unit :=
  st <- get ;;
  put (mkState (salas st) d (next_sala_id st) (next_reserva_id st)).

Definition set_next_sala_id (n : Z) : M unit :=
  st <- get ;;
  put (mkState (salas st) (reservas st) n (next_reserva_id st)).

Definition set_next_reserva_id (n : Z) : M unit :=
  st <- get ;;
  put (mkState (salas st) (reservas st) (next_sala_id st) n).

(** [del salas[k]] and [del reservas[k]] *)
Definition del_salas (k : Z) : M unit :=
  st <- get ;;
  match Dict.del k (salas st) with
  | Some d => set_salas d
  | None => raise KeyError
  end.

Definition del_reservas (k : Z) : M unit :=
  st <- get ;;
  match Dict.del k (reservas st) with
  | Some d => set_reservas d
  | None => raise KeyError
  end.

(** The error texts of the source. *)
Definition msg_fecha_invalida : string :=
  String.append "Fecha inv"
    (String (ascii_of_nat 225) "lida (use ISO-8601). Ej: 2026-01-20T10:00:00").
Definition msg_sala_no_encontrada : string := "Sala no encontrada".
Definition msg_nombre_duplicado : string := "Nombre duplicado".
Definition msg_sala_id_no_existe : string := "sala_id no existe".
Definition msg_fecha_fin : string := "fecha_fin debe ser mayor a fecha_inicio".
Definition msg_reserva_no_encontrada : string := "Reserva no encontrada".

(** [parse_iso]: [ValueError] of [fromisoformat] becomes a 400. *)
Definition parse_iso (dt_str : string) : M Datetime.datetime :=
  match Datetime.fromisoformat dt_str with
  | Some d => ret d
  | None => raise (HTTPException 400 msg_fecha_invalida)
  end.

(** [a <= b] on two [datetime] values, raising [TypeError] when Python does. *)
Definition datetime_le (a b : Datetime.datetime) : M bool :=
  match Datetime.le a b with
  | Some r => ret r
  | None => raise TypeError
  end.

(** *** Rooms *)

Definition listar_salas : M response :=
  st <- get ;;
  ret (SalaList (Dict.values (salas st))).

Definition obtener_sala (sala_id : Z) : M response :=
  st <- get ;;
  match Dict.get sala_id (salas st) with
  | None => raise (HTTPException 404 msg_sala_no_encontrada)
  | Some sala => ret (SalaDetail sala)
  end.

(** The loop over [salas.values()] of [crear_sala]. *)
Fixpoint check_nombre (nombre : string) (vs : list SalaOut.t) : M unit :=
  match vs with
  | [] => ret tt
  | s :: vs' =>
      if String.eqb (Str.lower (Str.strip (SalaOut.nombre s)))
                    (Str.lower (Str.strip nombre))
      then raise (HTTPException 400 msg_nombre_duplicado)
      else check_nombre nombre vs'
  end.

Definition crear_sala (payload : SalaCreate.t) : M response :=
  st <- get ;;
  check_nombre (SalaCreate.nombre payload) (Dict.values (salas st)) ;;
  st <- get ;;
  let sala := SalaOut.mk (next_sala_id st)
                         (Str.strip (SalaCreate.nombre payload))
                         (SalaCreate.capacidad payload)
                         (Str.strip (SalaCreate.ubicacion payload)) in
  set_salas (Dict.set (next_sala_id st) sala (salas st)) ;;
  st <- get ;;
  set_next_sala_id (next_sala_id st + 1) ;;
  ret (Created (SalaOut.id sala) "Creado").

(** The loop [for rid in to_delete: del reservas[rid]]. *)
Fixpoint del_each (to_delete : list Z) : M unit :=
  match to_delete with
  | [] => ret tt
  | rid :: rest => del_reservas rid ;; del_each rest
  end.

Definition eliminar_sala (sala_id : Z) : M response :=
  st <- get ;;
  (if negb (Dict.mem sala_id (salas st))
   then raise (HTTPException 404 msg_sala_no_encontrada)
   else ret tt) ;;
  del_salas sala_id ;;
  st <- get ;;
  let to_delete :=
    map fst (filter (fun kv => ReservaOut.sala_id (snd kv) =? sala_id)
                    (Dict.items (reservas st))) in
  del_each to_delete ;;
  ret NoContent.

(** *** Reservations *)

Definition crear_reserva (payload : ReservaCreate.t) : M response :=
  st <- get ;;
  (if negb (Dict.mem (ReservaCreate.sala_id payload) (salas st))
   then raise (HTTPException 400 msg_sala_id_no_existe)
   else ret tt) ;;
  inicio <- parse_iso (ReservaCreate.fecha_inicio payload) ;;
  fin <- parse_iso (ReservaCreate.fecha_fin payload) ;;
  b <- datetime_le fin inicio ;;
  (if b : bool then raise (HTTPException 400 msg_fecha_fin) else ret tt) ;;
  st <- get ;;
  let reserva := ReservaOut.mk (next_reserva_id st)
                               (ReservaCreate.sala_id payload)
                               (Str.strip (ReservaCreate.nombre_solicitante payload))
                               (ReservaCreate.fecha_inicio payload)
                               (ReservaCreate.fecha_fin payload) in
  set_reservas (Dict.set (next_reserva_id st) reserva (reservas st)) ;;
  st <- get ;;
  set_next_reserva_id (next_reserva_id st + 1) ;;
  ret (Created (ReservaOut.id reserva) "Creado").

Definition historial_reservas (sala_id : option Z) : M response :=
  st <- get ;;
  let all_res := Dict.values (reservas st) in
  let all_res :=
    match sala_id with
    | Some sid => filter (fun r => ReservaOut.sala_id r =? sid) all_res
    | None => all_res
    end in
  ret (ReservaList all_res).

(** [reserva] is the object held by the dictionary: the assignment to its
    field and the assignment to the key, which follow each other with no
    raise in between, are one update of the stored value. *)
Definition modificar_reserva (reserva_id : Z) (payload : ReservaPatch.t)
  : M response :=
  st <- get ;;
  match Dict.get reserva_id (reservas st) with
  | None => raise (HTTPException 404 msg_reserva_no_encontrada)
  | Some reserva =>
      inicio <- parse_iso (ReservaOut.fecha_inicio reserva) ;;
      nueva_fin <- parse_iso (ReservaPatch.fecha_fin payload) ;;
      b <- datetime_le nueva_fin inicio ;;
      (if b : bool then raise (HTTPException 400 msg_fecha_fin) else ret tt) ;;
      let reserva :=
        ReservaOut.set_fecha_fin (ReservaPatch.fecha_fin payload) reserva in
      st <- get ;;
      set_reservas (Dict.set reserva_id reserva (reservas st)) ;;
      ret (Updated (ReservaOut.id reserva) "Actualizado"
                   (ReservaOut.fecha_fin reserva))
  end.

Definition cancelar_reserva (reserva_id : Z) : M response :=
  st <- get ;;
  (if negb (Dict.mem reserva_id (reservas st))
   then raise (HTTPException 404 msg_reserva_no_encontrada)
   else ret tt) ;;
  del_reservas reserva_id ;;
  ret NoContent.

(** ** The application *)

(** The eight routes with what the client sends. *)
Inductive request : Type :=
| GET_salas
| GET_sala (sala_id : Z)
| POST_salas (payload : SalaCreate.t)
| DELETE_sala (sala_id : Z)
| POST_reservas (payload : ReservaCreate.t)
| GET_reservas (sala_id : option Z)
| PATCH_reserva (reserva_id : Z) (payload : ReservaPatch.t)
| DELETE_reserva (reserva_id : Z).

(** The framework checks a body against its model, then calls the handler. *)
Definition app (r : request) : M response :=
  match r with
  | GET_salas => listar_salas
  | GET_sala sala_id => obtener_sala sala_id
  | POST_salas payload =>
      if SalaCreate.valid payload then crear_sala payload
      else raise RequestValidationError
  | DELETE_sala sala_id => eliminar_sala sala_id
  | POST_reservas payload =>
      if ReservaCreate.valid payload then crear_reserva payload
      else raise RequestValidationError
  | GET_reservas sala_id => historial_reservas sala_id
  | PATCH_reserva reserva_id payload => modificar_reserva reserva_id payload
  | DELETE_reserva reserva_id => cancelar_reserva reserva_id
  end.

(** The state after serving a list of requests in order. *)
Definition serve (st : State) (r : request) : State := snd (app r st).

Definition run (rs : list request) : State := fold_left serve rs initial.

(** The responses of a list of requests served in order from [st]. *)
Fixpoint replies (rs : list request) (st : State) : list (exn + response) :=
  match rs with
  | [] => []
  | r :: rs' => fst (app r st) :: replies rs' (snd (app r st))
  end.

(** ** Definitions used to state the properties *)

(** The test of the duplicate-name loop. *)
Definition same_nombre (nombre : string) (s : SalaOut.t) : bool :=
  String.eqb (Str.lower (Str.strip (SalaOut.nombre s)))
             (Str.lower (Str.strip nombre)).

(** The room that [crear_sala] builds. *)
Definition new_sala (payload : SalaCreate.t) (st : State) : SalaOut.t :=
  SalaOut.mk (next_sala_id st)
             (Str.strip (SalaCreate.nombre payload))
             (SalaCreate.capacidad payload)
             (Str.strip (SalaCreate.ubicacion payload)).

(** The reservation that [crear_reserva] builds. *)
Definition new_reserva (payload : ReservaCreate.t) (st : State) : ReservaOut.t :=
  ReservaOut.mk (next_reserva_id st)
                (ReservaCreate.sala_id payload)
                (Str.strip (ReservaCreate.nombre_solicitante payload))
                (ReservaCreate.fecha_inicio payload)
                (ReservaCreate.fecha_fin payload).

(** The state that the cascade of [eliminar_sala] leaves. *)
Definition without_sala (sala_id : Z) (st : State) : State :=
  mkState (Dict.remove sala_id (salas st))
          (filter (fun kv => negb (ReservaOut.sala_id (snd kv) =? sala_id))
                  (reservas st))
          (next_sala_id st) (next_reserva_id st).

(** A stored date is one that [fromisoformat] accepts. *)
Definition parses (s : string) : Prop := Datetime.fromisoformat s <> None.

(** What holds of every state reached from [initial]: both dictionaries
    have unique keys, every reservation points to a stored room, and the
    two dates of every reservation parse. *)
Record Inv (st : State) : Prop := mkInv {
  inv_wf_salas : Dict.wf (salas st);
  inv_wf_reservas : Dict.wf (reservas st);
  inv_sala_id :
    Forall (fun r => Dict.mem (ReservaOut.sala_id r) (salas st) = true)
           (Dict.values (reservas st));
  inv_fechas :
    Forall (fun r => parses (ReservaOut.fecha_inicio r)
                     /\ parses (ReservaOut.fecha_fin r))
           (Dict.values (reservas st))
}.

(** ** A state with two rooms and three reservations, for the examples *)

Definition example_requests : list request := [
  POST_salas (SalaCreate.mk "Sala A" 4 "Piso 1");
  POST_salas (SalaCreate.mk "Sala B" 8 "Piso 2");
  POST_reservas (ReservaCreate.mk 1 "Ana" "2026-01-20T10:00:00" "2026-01-20T11:00:00");
  POST_reservas (ReservaCreate.mk 2 "Luis" "2026-01-21T09:00:00" "2026-01-21T09:30:00");
  POST_reservas (ReservaCreate.mk 1 "Eva" "2026-01-22T15:00:00" "2026-01-22T18:00:00")
].

Definition example_state : State := run example_requests.

(** ** Further invariants of reachable states *)

(** A name as the duplicate test of [crear_sala] sees it. *)
Definition normal (nombre : string) : string := Str.lower (Str.strip nombre).

(** Both dates parse and [fin <= inicio] is false. *)
Definition interval_ok (r : ReservaOut.t) : bool :=
  match Datetime.fromisoformat (ReservaOut.fecha_inicio r),
        Datetime.fromisoformat (ReservaOut.fecha_fin r) with
  | Some inicio, Some fin =>
      match Datetime.le fin inicio with
      | Some false => true
      | _ => false
      end
  | _, _ => false
  end.

(** What the stored objects look like in a state reached from [initial]:
    every object sits under its own id, ids are positive and below the
    counter that hands them out, room names differ pairwise under the
    duplicate test, stored names have no surrounding whitespace, capacities
    are positive and every reservation ends after it starts. *)
Record Consistent (st : State) : Prop := mkConsistent {
  con_next_sala_id : 1 <= next_sala_id st;
  con_next_reserva_id : 1 <= next_reserva_id st;
  con_ids_salas :
    Forall (fun kv => SalaOut.id (snd kv) = fst kv
                      /\ 1 <= fst kv < next_sala_id st) (salas st);
  con_ids_reservas :
    Forall (fun kv => ReservaOut.id (snd kv) = fst kv
                      /\ 1 <= fst kv < next_reserva_id st) (reservas st);
  con_nombres :
    NoDup (map (fun s => normal (SalaOut.nombre s)) (Dict.values (salas st)));
  con_salas_stripped :
    Forall (fun s => Str.strip (SalaOut.nombre s) = SalaOut.nombre s
                     /\ Str.strip (SalaOut.ubicacion s) = SalaOut.ubicacion s)
           (Dict.values (salas st));
  con_reservas_stripped :
    Forall (fun r => Str.strip (ReservaOut.nombre_solicitante r) =
                     ReservaOut.nombre_solicitante r)
           (Dict.values (reservas st));
  con_capacidad :
    Forall (fun s => 1 <= SalaOut.capacidad s) (Dict.values (salas st));
  con_intervals :
    Forall (fun r => interval_ok r = true) (Dict.values (reservas st))
}.

(** The keys of both dictionaries, in insertion order, increase. *)
Definition keys_increasing (st : State) : Prop :=
  StronglySorted Z.lt (map fst (salas st))
  /\ StronglySorted Z.lt (map fst (reservas st)).

(** The routes that only read. *)
Definition is_get (r : request) : bool :=
  match r with
  | GET_salas | GET_sala _ | GET_reservas _ => true
  | _ => false
  end.

(** * Properties *)

(** ** The library models on known values *)

Example strip_examples :
  Str.strip "  alpha " = "alpha"
  /\ Str.strip "Piso 1" = "Piso 1"
  /\ Str.strip "   " = ""
  /\ Str.lower "Sala A" = "sala a".
Proof. repeat split. Qed.

Example fromisoformat_examples :
  Datetime.fromisoformat "2026-01-20T10:00:00" =
    Some (Datetime.mk_datetime 2026 1 20 10 0 0 0 None)
  /\ Datetime.fromisoformat "2026-01-20T10:00:00.250-03:00" =
       Some (Datetime.mk_datetime 2026 1 20 10 0 0 250000 (Some (-10800000000)))
  /\ Datetime.fromisoformat "2026-02-29T10:00:00" = None
  /\ Datetime.fromisoformat "2026-01-20T10:61:00" = None
  /\ Datetime.fromisoformat "ayer" = None.
Proof. repeat split. Qed.

(** Forms beyond [YYYY-MM-DDTHH:MM:SS]: the [Z] suffix, a fraction of
    any length, offsets and dates without separators, week dates; an
    offset of no whole second is UTC; garbage after six fraction digits
    is skipped when an offset follows. *)
Example fromisoformat_other_forms :
  Datetime.fromisoformat "2026-01-20T10:00:00Z" =
    Some (Datetime.mk_datetime 2026 1 20 10 0 0 0 (Some 0))
  /\ Datetime.fromisoformat "2026-01-20T10:00:00.5" =
       Some (Datetime.mk_datetime 2026 1 20 10 0 0 500000 None)
  /\ Datetime.fromisoformat "2026-01-20T10:00:00+0530" =
       Some (Datetime.mk_datetime 2026 1 20 10 0 0 0 (Some 19800000000))
  /\ Datetime.fromisoformat "20260120T100000" =
       Some (Datetime.mk_datetime 2026 1 20 10 0 0 0 None)
  /\ Datetime.fromisoformat "2026-W03-2" =
       Some (Datetime.mk_datetime 2026 1 13 0 0 0 0 None)
  /\ Datetime.fromisoformat "2026-01-20T10:00:00+00:00:00.000001" =
       Some (Datetime.mk_datetime 2026 1 20 10 0 0 0 (Some 0))
  /\ Datetime.fromisoformat "2026-01-20T10:00:00.123456x+01:00" =
       Some (Datetime.mk_datetime 2026 1 20 10 0 0 123456 (Some 3600000000))
  /\ Datetime.fromisoformat "2026-01-20T10:00:00+24:00" = None
  /\ Datetime.fromisoformat "2026-01-20T24:00:00" = None
  /\ Datetime.fromisoformat "0000-W01-1" = None
  /\ Datetime.fromisoformat "2026-01-20T" = None.
Proof. repeat split. Qed.

(** Reservations with such dates: two [Z] dates are stored; a start with
    an offset of one microsecond and an end at the same wall time in UTC
    are the same instant, and the request is refused. *)
Example crear_reserva_other_forms :
  let st := run [POST_salas (SalaCreate.mk "Sala A" 4 "Piso 1")] in
  fst (crear_reserva (ReservaCreate.mk 1 "Ana" "2026-01-20T10:00:00Z"
                                       "2026-01-20T11:00:00Z") st) =
    inr (Created 1 "Creado")
  /\ fst (crear_reserva
            (ReservaCreate.mk 1 "Ana" "2026-01-20T10:00:00+00:00:00.000001"
                              "2026-01-20T10:00:00+00:00") st) =
       inl (HTTPException 400 msg_fecha_fin).
Proof. repeat split. Qed.

Example le_examples :
  let t s := Datetime.fromisoformat s in
  option_map (Datetime.le (Datetime.mk_datetime 2026 1 20 9 0 0 0 None))
             (t "2026-01-20T10:00:00") = Some (Some true)
  /\ option_map (Datetime.le (Datetime.mk_datetime 2026 1 20 12 0 0 0 (Some 7200000000)))
                (t "2026-01-20T10:00:00+00:00") = Some (Some true)
  /\ option_map (Datetime.le (Datetime.mk_datetime 2026 1 20 12 0 0 0 (Some 0)))
                (t "2026-01-20T10:00:00+00:00") = Some (Some false)
  /\ Datetime.ymd2ord 2026 1 20 = 739636.
Proof. repeat split. Qed.

(** ** Dictionaries *)

Module DictFacts.
Import Dict.

Section Lemmas.
Context {V : Type}.
Implicit Types (d : dict V) (k : Z) (v : V).

Lemma mem_true_iff k d : mem k d = true <-> In k (map fst d).
Proof.
  unfold mem. rewrite existsb_exists, in_map_iff. split.
  - intros [kv [Hin Hk]]. exists kv. split; [lia | assumption].
  - intros [kv [Hk Hin]]. exists kv. split; [assumption | lia].
Qed.

Lemma mem_false_iff k d : mem k d = false <-> ~ In k (map fst d).
Proof.
  rewrite <- mem_true_iff. destruct (mem k d); split; congruence.
Qed.

Lemma get_none_iff k d : get k d = None <-> mem k d = false.
Proof.
  induction d as [|[k' v'] d IH]; simpl; [tauto|].
  destruct (k' =? k); simpl; [split; discriminate | exact IH].
Qed.

Lemma get_In k v d : get k d = Some v -> In (k, v) d.
Proof.
  induction d as [|[k' v'] d IH]; simpl; [discriminate|].
  destruct (Z.eqb_spec k' k) as [->|Hne].
  - intros [= ->]. now left.
  - intros H. right. auto.
Qed.

Lemma In_get k v d : wf d -> In (k, v) d -> get k d = Some v.
Proof.
  unfold wf. induction d as [|[k' v'] d IH]; simpl; [tauto|].
  intros Hnd [Heq|Hin]; inversion Hnd as [|? ? Hn Hnd']; subst.
  - injection Heq as -> ->. now rewrite Z.eqb_refl.
  - destruct (Z.eqb_spec k' k) as [->|Hne]; [|auto].
    exfalso. apply Hn. change k with (fst (k, v)). now apply in_map.
Qed.

Lemma get_set_same k v d : get k (set k v d) = Some v.
Proof.
  induction d as [|[k' v'] d IH]; simpl.
  - now rewrite Z.eqb_refl.
  - destruct (Z.eqb_spec k' k) as [->|Hne]; simpl.
    + now rewrite Z.eqb_refl.
    + destruct (Z.eqb_spec k' k); [contradiction | exact IH].
Qed.

Lemma get_set_other k k' v d : k' <> k -> get k' (set k v d) = get k' d.
Proof.
  intros Hne. induction d as [|[k0 v0] d IH]; simpl.
  - destruct (Z.eqb_spec k k'); [congruence | reflexivity].
  - destruct (Z.eqb_spec k0 k) as [->|Hne0]; simpl.
    + destruct (Z.eqb_spec k k'); [congruence | reflexivity].
    + now rewrite IH.
Qed.

Lemma In_set kv k v d : In kv (set k v d) -> kv = (k, v) \/ In kv d.
Proof.
  induction d as [|[k0 v0] d IH]; simpl.
  - intros [<-|[]]. now left.
  - destruct (k0 =? k); simpl.
    + intros [<-|Hin]; [now left | right; now right].
    + intros [<-|Hin]; [right; now left |].
      destruct (IH Hin); [now left | right; now right].
Qed.

(** An assignment to an existing key leaves the key order alone. *)
Lemma keys_set_mem k v d :
  mem k d = true -> map fst (set k v d) = map fst d.
Proof.
  induction d as [|[k0 v0] d IH]; simpl; [discriminate|].
  destruct (Z.eqb_spec k0 k) as [->|Hne]; simpl; [reflexivity|].
  intros H. now rewrite IH.
Qed.

(** An assignment to a new key appends it. *)
Lemma keys_set_new k v d :
  mem k d = false -> map fst (set k v d) = map fst d ++ [k].
Proof.
  induction d as [|[k0 v0] d IH]; simpl; [reflexivity|].
  destruct (Z.eqb_spec k0 k) as [->|Hne]; simpl; [discriminate|].
  intros H. now rewrite IH.
Qed.

Lemma mem_set k k' v d : mem k' d = true -> mem k' (set k v d) = true.
Proof.
  rewrite !mem_true_iff. destruct (mem k d) eqn:Hk.
  - now rewrite keys_set_mem.
  - rewrite keys_set_new by assumption. intros H.
    apply in_or_app. now left.
Qed.

Lemma wf_set k v d : wf d -> wf (set k v d).
Proof.
  unfold wf. destruct (mem k d) eqn:Hk.
  - now rewrite keys_set_mem.
  - rewrite keys_set_new by assumption. intros Hnd.
    apply NoDup_app; [assumption | repeat constructor; simpl; tauto |].
    intros x Hx [<-|[]]. apply mem_false_iff in Hk. contradiction.
Qed.

Lemma wf_filter (p : Z * V -> bool) d : wf d -> wf (filter p d).
Proof.
  unfold wf. induction d as [|kv d IH]; simpl; [auto|].
  intros Hnd. inversion Hnd as [|? ? Hn Hnd']; subst.
  destruct (p kv); simpl; [|auto].
  constructor; [|auto]. intros Hin. apply Hn.
  apply in_map_iff in Hin as [kv' [Hk Hin]].
  apply filter_In in Hin as [Hin _]. rewrite <- Hk. now apply in_map.
Qed.

Lemma wf_remove k d : wf d -> wf (remove k d).
Proof. apply wf_filter. Qed.

Lemma get_remove_same k d : get k (remove k d) = None.
Proof.
  induction d as [|[k0 v0] d IH]; simpl; [reflexivity|].
  destruct (Z.eqb_spec k0 k) as [->|Hne]; simpl; [exact IH|].
  destruct (Z.eqb_spec k0 k); [contradiction | exact IH].
Qed.

Lemma get_remove_other k k' d : k' <> k -> get k' (remove k d) = get k' d.
Proof.
  intros Hne. induction d as [|[k0 v0] d IH]; simpl; [reflexivity|].
  destruct (Z.eqb_spec k0 k) as [->|Hne0]; simpl.
  - destruct (Z.eqb_spec k k'); [congruence | exact IH].
  - now rewrite IH.
Qed.

(** Looking a key up after keeping the entries that satisfy [p]. *)
Lemma get_filter (p : Z * V -> bool) k d :
  wf d ->
  get k (filter p d) =
    match get k d with
    | Some v => if p (k, v) then Some v else None
    | None => None
    end.
Proof.
  unfold wf. induction d as [|[k0 v0] d IH]; simpl; [reflexivity|].
  intros Hnd. inversion Hnd as [|? ? Hn Hnd']; subst.
  destruct (Z.eqb_spec k0 k) as [->|Hne].
  - destruct (p (k, v0)) eqn:Hp; simpl.
    + now rewrite Z.eqb_refl.
    + rewrite IH by assumption.
      destruct (get k d) as [v|] eqn:Hg; [|reflexivity].
      exfalso. apply Hn. apply get_In in Hg.
      change k with (fst (k, v)). now apply in_map.
  - destruct (p (k0, v0)); simpl.
    + destruct (Z.eqb_spec k0 k); [contradiction | auto].
    + auto.
Qed.

Lemma filter_filter (p q : Z * V -> bool) d :
  filter p (filter q d) = filter (fun kv => q kv && p kv) d.
Proof.
  induction d as [|kv d IH]; simpl; [reflexivity|].
  destruct (q kv); simpl; [destruct (p kv)|]; now rewrite IH.
Qed.

End Lemmas.
End DictFacts.

(** ** What each handler computes

    One equation per handler: its reply and the state it leaves, by cases
    on the tests it makes. *)

Ltac run_monad :=
  unfold set_salas, set_reservas, set_next_sala_id, set_next_reserva_id,
    parse_iso, datetime_le, bind, ret, raise, get, put; simpl.

Lemma check_nombre_eq nombre vs st :
  check_nombre nombre vs st =
    if existsb (same_nombre nombre) vs
    then (inl (HTTPException 400 msg_nombre_duplicado), st)
    else (inr tt, st).
Proof.
  induction vs as [|s vs IH]; simpl; [reflexivity|].
  unfold same_nombre at 1.
  destruct (String.eqb _ _); simpl; [reflexivity | exact IH].
Qed.

Lemma crear_sala_eq payload st :
  crear_sala payload st =
    if existsb (same_nombre (SalaCreate.nombre payload)) (Dict.values (salas st))
    then (inl (HTTPException 400 msg_nombre_duplicado), st)
    else (inr (Created (next_sala_id st) "Creado"),
          mkState (Dict.set (next_sala_id st) (new_sala payload st) (salas st))
                  (reservas st) (next_sala_id st + 1) (next_reserva_id st)).
Proof.
  unfold crear_sala. run_monad. rewrite check_nombre_eq.
  destruct (existsb _ _); reflexivity.
Qed.

(** Deleting distinct keys that are all present, one by one, leaves the
    entries whose key is none of them; no [KeyError] comes up. *)
Lemma del_each_eq ks : forall st,
  NoDup ks ->
  (forall k, In k ks -> Dict.mem k (reservas st) = true) ->
  del_each ks st =
    (inr tt,
     mkState (salas st)
             (filter (fun kv => negb (existsb (fun k => fst kv =? k) ks)) (reservas st))
             (next_sala_id st) (next_reserva_id st)).
Proof.
  induction ks as [|k ks IH]; intros st Hnd Hin; simpl.
  - unfold ret. f_equal. destruct st as [s r n m]; simpl. f_equal.
    symmetry. apply forallb_filter_id. now apply forallb_forall.
  - inversion Hnd as [|? ? Hk Hnd']; subst.
    unfold del_reservas, Dict.del. run_monad.
    rewrite (Hin k) by now left. run_monad.
    rewrite IH; simpl; [|assumption|].
    + f_equal. f_equal. unfold Dict.remove.
      rewrite DictFacts.filter_filter. apply filter_ext. intros [k0 v0]; simpl.
      destruct (k0 =? k); reflexivity.
    + intros k' Hk'. apply DictFacts.mem_true_iff.
      specialize (Hin k' (or_intror Hk')). apply DictFacts.mem_true_iff in Hin.
      apply in_map_iff in Hin as [kv [Hfst Hkv]]. apply in_map_iff.
      exists kv. split; [assumption|]. apply filter_In. split; [assumption|].
      rewrite Hfst. destruct (Z.eqb_spec k' k); [subst; contradiction | reflexivity].
Qed.

Lemma eliminar_sala_eq sala_id st :
  Dict.wf (reservas st) ->
  eliminar_sala sala_id st =
    if Dict.mem sala_id (salas st)
    then (inr NoContent, without_sala sala_id st)
    else (inl (HTTPException 404 msg_sala_no_encontrada), st).
Proof.
  intros Hwf. unfold eliminar_sala, del_salas, Dict.del. run_monad.
  destruct (Dict.mem sala_id (salas st)) eqn:Hmem; simpl; [|reflexivity].
  run_monad. rewrite Hmem. simpl. unfold Dict.items.
  set (p := fun kv : Z * ReservaOut.t => ReservaOut.sala_id (snd kv) =? sala_id).
  rewrite del_each_eq; simpl.
  - unfold without_sala. f_equal. f_equal. apply filter_ext_in.
    intros [k r] Hkr. cbn [fst snd]. f_equal.
    change (ReservaOut.sala_id r =? sala_id) with (p (k, r)).
    destruct (p (k, r)) eqn:Hp.
    + apply existsb_exists. exists k. split; [|apply Z.eqb_refl].
      apply in_map_iff. exists (k, r). split; [reflexivity|].
      apply filter_In. now split.
    + destruct (existsb _ _) eqn:Hex; [|reflexivity].
      apply existsb_exists in Hex as [k' [Hin Heq]].
      apply Z.eqb_eq in Heq. subst k'.
      apply in_map_iff in Hin as [[k' r'] [Hfst Hin]]. simpl in Hfst. subst k'.
      apply filter_In in Hin as [Hin Hp'].
      apply (DictFacts.In_get _ _ _ Hwf) in Hin.
      apply (DictFacts.In_get _ _ _ Hwf) in Hkr. congruence.
  - pose proof (DictFacts.wf_filter p _ Hwf) as H. exact H.
  - intros k Hk. apply DictFacts.mem_true_iff.
    apply in_map_iff in Hk as [kv [Hfst Hin]]. apply filter_In in Hin as [Hin _].
    apply in_map_iff. now exists kv.
Qed.

Lemma crear_reserva_eq payload st :
  crear_reserva payload st =
    if negb (Dict.mem (ReservaCreate.sala_id payload) (salas st))
    then (inl (HTTPException 400 msg_sala_id_no_existe), st)
    else
      match Datetime.fromisoformat (ReservaCreate.fecha_inicio payload),
            Datetime.fromisoformat (ReservaCreate.fecha_fin payload) with
      | Some inicio, Some fin =>
          match Datetime.le fin inicio with
          | None => (inl TypeError, st)
          | Some true => (inl (HTTPException 400 msg_fecha_fin), st)
          | Some false =>
              (inr (Created (next_reserva_id st) "Creado"),
               mkState (salas st)
                       (Dict.set (next_reserva_id st) (new_reserva payload st)
                                 (reservas st))
                       (next_sala_id st) (next_reserva_id st + 1))
          end
      | _, _ => (inl (HTTPException 400 msg_fecha_invalida), st)
      end.
Proof.
  unfold crear_reserva. run_monad.
  destruct (negb _); simpl; [reflexivity|].
  destruct (Datetime.fromisoformat (ReservaCreate.fecha_inicio payload));
    simpl; [|reflexivity].
  destruct (Datetime.fromisoformat (ReservaCreate.fecha_fin payload));
    simpl; [|reflexivity].
  destruct (Datetime.le _ _) as [[|]|]; reflexivity.
Qed.

Lemma modificar_reserva_eq reserva_id payload st :
  modificar_reserva reserva_id payload st =
    match Dict.get reserva_id (reservas st) with
    | None => (inl (HTTPException 404 msg_reserva_no_encontrada), st)
    | Some reserva =>
        match Datetime.fromisoformat (ReservaOut.fecha_inicio reserva),
              Datetime.fromisoformat (ReservaPatch.fecha_fin payload) with
        | Some inicio, Some nueva_fin =>
            match Datetime.le nueva_fin inicio with
            | None => (inl TypeError, st)
            | Some true => (inl (HTTPException 400 msg_fecha_fin), st)
            | Some false =>
                (inr (Updated (ReservaOut.id reserva) "Actualizado"
                              (ReservaPatch.fecha_fin payload)),
                 mkState (salas st)
                         (Dict.set reserva_id
                            (ReservaOut.set_fecha_fin
                               (ReservaPatch.fecha_fin payload) reserva)
                            (reservas st))
                         (next_sala_id st) (next_reserva_id st))
            end
        | _, _ => (inl (HTTPException 400 msg_fecha_invalida), st)
        end
    end.
Proof.
  unfold modificar_reserva. run_monad.
  destruct (Dict.get reserva_id (reservas st)) as [reserva|]; [|reflexivity].
  run_monad.
  destruct (Datetime.fromisoformat (ReservaOut.fecha_inicio reserva));
    simpl; [|reflexivity].
  destruct (Datetime.fromisoformat (ReservaPatch.fecha_fin payload));
    simpl; [|reflexivity].
  destruct (Datetime.le _ _) as [[|]|]; reflexivity.
Qed.

Lemma cancelar_reserva_eq reserva_id st :
  cancelar_reserva reserva_id st =
    if Dict.mem reserva_id (reservas st)
    then (inr NoContent,
          mkState (salas st) (Dict.remove reserva_id (reservas st))
                  (next_sala_id st) (next_reserva_id st))
    else (inl (HTTPException 404 msg_reserva_no_encontrada), st).
Proof.
  unfold cancelar_reserva, del_reservas, Dict.del. run_monad.
  destruct (Dict.mem reserva_id (reservas st)) eqn:Hmem; simpl; [|reflexivity].
  now rewrite Hmem.
Qed.

(** The three read-only routes leave the state as it is. *)
Lemma read_only_state st :
  snd (listar_salas st) = st
  /\ (forall sala_id, snd (obtener_sala sala_id st) = st)
  /\ (forall sala_id, snd (historial_reservas sala_id st) = st).
Proof.
  repeat split; intros.
  - unfold obtener_sala. run_monad. now destruct (Dict.get _ _).
Qed.

(** ** Invariants of the states the application reaches *)

Module ValuesFacts.
Import Dict.

Section Lemmas.
Context {V : Type} (P : V -> Prop).
Implicit Types (d : dict V) (k : Z) (v : V).

Lemma Forall_values_In d k v :
  Forall P (values d) -> In (k, v) d -> P v.
Proof.
  unfold values. rewrite Forall_forall. intros H Hin.
  apply H. change v with (snd (k, v)). now apply in_map.
Qed.

Lemma Forall_values_get d k v :
  Forall P (values d) -> get k d = Some v -> P v.
Proof.
  intros H Hg. eapply Forall_values_In; [exact H|].
  apply DictFacts.get_In. exact Hg.
Qed.

Lemma Forall_values_set d k v :
  Forall P (values d) -> P v -> Forall P (values (set k v d)).
Proof.
  unfold values. rewrite !Forall_forall. intros H Hv x Hx.
  apply in_map_iff in Hx as [[k' v'] [<- Hin]]. simpl.
  apply DictFacts.In_set in Hin as [[= -> ->]|Hin]; [assumption|].
  apply H. change v' with (snd (k', v')). now apply in_map.
Qed.

Lemma Forall_values_filter (p : Z * V -> bool) d :
  (forall kv, In kv d -> p kv = true -> P (snd kv)) ->
  Forall P (values (filter p d)).
Proof.
  unfold values. rewrite Forall_forall. intros H x Hx.
  apply in_map_iff in Hx as [kv [<- Hin]].
  apply filter_In in Hin as [Hin Hp]. now apply H.
Qed.

End Lemmas.
End ValuesFacts.

Lemma Inv_initial : Inv initial.
Proof. split; simpl; constructor. Qed.

Lemma mem_remove_other {V} (k k' : Z) (d : Dict.dict V) :
  k' <> k -> Dict.mem k' d = true -> Dict.mem k' (Dict.remove k d) = true.
Proof.
  intros Hne. rewrite !DictFacts.mem_true_iff, !in_map_iff.
  intros [kv [Hk Hin]]. exists kv. split; [assumption|].
  apply filter_In. split; [assumption|].
  rewrite Hk. destruct (Z.eqb_spec k' k); [contradiction | reflexivity].
Qed.

Lemma Inv_crear_sala payload st : Inv st -> Inv (snd (crear_sala payload st)).
Proof.
  intros [Hs Hr Hfk Hf]. rewrite crear_sala_eq.
  destruct (existsb _ _); simpl; [now split|].
  split; simpl; try assumption.
  - now apply DictFacts.wf_set.
  - eapply Forall_impl; [|exact Hfk]. intros r. apply DictFacts.mem_set.
Qed.

Lemma Inv_eliminar_sala sala_id st : Inv st -> Inv (snd (eliminar_sala sala_id st)).
Proof.
  intros [Hs Hr Hfk Hf]. rewrite eliminar_sala_eq by assumption.
  destruct (Dict.mem sala_id (salas st)); simpl; [|now split].
  split; simpl.
  - now apply DictFacts.wf_remove.
  - now apply DictFacts.wf_filter.
  - apply ValuesFacts.Forall_values_filter. intros [k r] Hin Hp. simpl in *.
    apply mem_remove_other.
    + destruct (Z.eqb_spec (ReservaOut.sala_id r) sala_id); [discriminate | assumption].
    + exact (ValuesFacts.Forall_values_In _ _ _ _ Hfk Hin).
  - apply ValuesFacts.Forall_values_filter. intros [k r] Hin _.
    exact (ValuesFacts.Forall_values_In _ _ _ _ Hf Hin).
Qed.

Lemma Inv_crear_reserva payload st : Inv st -> Inv (snd (crear_reserva payload st)).
Proof.
  intros [Hs Hr Hfk Hf]. rewrite crear_reserva_eq.
  destruct (Dict.mem _ (salas st)) eqn:Hmem; simpl; [|now split].
  destruct (Datetime.fromisoformat (ReservaCreate.fecha_inicio payload)) eqn:Hi;
    [|now split].
  destruct (Datetime.fromisoformat (ReservaCreate.fecha_fin payload)) eqn:Hfin;
    [|now split].
  destruct (Datetime.le _ _) as [[|]|]; simpl; try now split.
  split; simpl; try assumption.
  - now apply DictFacts.wf_set.
  - now apply ValuesFacts.Forall_values_set.
  - apply ValuesFacts.Forall_values_set; [assumption|].
    unfold parses; simpl. rewrite Hi, Hfin. split; discriminate.
Qed.

Lemma Inv_modificar_reserva reserva_id payload st :
  Inv st -> Inv (snd (modificar_reserva reserva_id payload st)).
Proof.
  intros [Hs Hr Hfk Hf]. rewrite modificar_reserva_eq.
  destruct (Dict.get reserva_id (reservas st)) as [reserva|] eqn:Hget;
    [|now split].
  destruct (Datetime.fromisoformat (ReservaOut.fecha_inicio reserva)) eqn:Hi;
    [|now split].
  destruct (Datetime.fromisoformat (ReservaPatch.fecha_fin payload)) eqn:Hfin;
    [|now split].
  destruct (Datetime.le _ _) as [[|]|]; simpl; try now split.
  split; simpl; try assumption.
  - now apply DictFacts.wf_set.
  - apply ValuesFacts.Forall_values_set; [assumption|]. simpl.
    exact (ValuesFacts.Forall_values_get _ _ _ _ Hfk Hget).
  - apply ValuesFacts.Forall_values_set; [assumption|].
    unfold parses; simpl. rewrite Hi, Hfin. split; discriminate.
Qed.

Lemma Inv_cancelar_reserva reserva_id st :
  Inv st -> Inv (snd (cancelar_reserva reserva_id st)).
Proof.
  intros [Hs Hr Hfk Hf]. rewrite cancelar_reserva_eq.
  destruct (Dict.mem _ _); simpl; [|now split].
  split; simpl; try assumption.
  - now apply DictFacts.wf_remove.
  - apply ValuesFacts.Forall_values_filter. intros [k r] Hin _.
    exact (ValuesFacts.Forall_values_In _ _ _ _ Hfk Hin).
  - apply ValuesFacts.Forall_values_filter. intros [k r] Hin _.
    exact (ValuesFacts.Forall_values_In _ _ _ _ Hf Hin).
Qed.

Lemma Inv_serve st r : Inv st -> Inv (serve st r).
Proof.
  intros H. unfold serve.
  destruct r as [|sid|p|sid|p|sid|rid p|rid]; simpl.
  - exact H.
  - now rewrite (proj1 (proj2 (read_only_state st))).
  - destruct (SalaCreate.valid p); [now apply Inv_crear_sala | exact H].
  - now apply Inv_eliminar_sala.
  - destruct (ReservaCreate.valid p); [now apply Inv_crear_reserva | exact H].
  - exact H.
  - now apply Inv_modificar_reserva.
  - now apply Inv_cancelar_reserva.
Qed.

Lemma Inv_fold rs : forall st, Inv st -> Inv (fold_left serve rs st).
Proof.
  induction rs as [|r rs IH]; intros st H; simpl; [exact H|].
  apply IH. now apply Inv_serve.
Qed.

Lemma Inv_run rs : Inv (run rs).
Proof. apply Inv_fold, Inv_initial. Qed.

(** ** The example state *)

Example example_state_eq :
  example_state =
    mkState
      [(1, SalaOut.mk 1 "Sala A" 4 "Piso 1"); (2, SalaOut.mk 2 "Sala B" 8 "Piso 2")]
      [(1, ReservaOut.mk 1 1 "Ana" "2026-01-20T10:00:00" "2026-01-20T11:00:00");
       (2, ReservaOut.mk 2 2 "Luis" "2026-01-21T09:00:00" "2026-01-21T09:30:00");
       (3, ReservaOut.mk 3 1 "Eva" "2026-01-22T15:00:00" "2026-01-22T18:00:00")]
      3 4.
Proof. reflexivity. Qed.

(** ** Referential integrity *)

(** C1. From the initial state, after any sequence of requests, every
    reservation in the store has a [sala_id] that is a key of [salas]. *)
Theorem referential_integrity (rs : list request) :
  Forall (fun r => Dict.mem (ReservaOut.sala_id r) (salas (run rs)) = true)
         (Dict.values (reservas (run rs))).
Proof. exact (inv_sala_id _ (Inv_run rs)). Qed.

(** ** Deleting a room *)

(** C2. On a state whose reservation dictionary has unique keys,
    [eliminar_sala] answers 204 when the room is present and leaves the
    rooms without that key, the reservations without those of that room,
    in their order, and the two counters as they were; every other room
    and every reservation of another room is found as before.  When the
    room is absent it raises the 404 and the state is the one it got. *)
Theorem eliminar_sala_cascade (st : State) (sala_id : Z) :
  Dict.wf (reservas st) ->
  let st' :=
    mkState (filter (fun kv => negb (fst kv =? sala_id)) (salas st))
            (filter (fun kv => negb (ReservaOut.sala_id (snd kv) =? sala_id))
                    (reservas st))
            (next_sala_id st) (next_reserva_id st) in
  eliminar_sala sala_id st =
    (if Dict.mem sala_id (salas st)
     then (inr NoContent, st')
     else (inl (HTTPException 404 msg_sala_no_encontrada), st))
  /\ (forall k, Dict.get k (salas st') =
                if k =? sala_id then None else Dict.get k (salas st))
  /\ (forall rid, Dict.get rid (reservas st') =
                  match Dict.get rid (reservas st) with
                  | Some r => if ReservaOut.sala_id r =? sala_id
                              then None else Some r
                  | None => None
                  end).
Proof.
  intros Hwf st'. split; [|split].
  - now rewrite eliminar_sala_eq.
  - intros k. subst st'. simpl.
    change (filter _ (salas st)) with (Dict.remove sala_id (salas st)).
    destruct (Z.eqb_spec k sala_id) as [->|Hne].
    + apply DictFacts.get_remove_same.
    + now apply DictFacts.get_remove_other.
  - intros rid. subst st'. simpl. rewrite DictFacts.get_filter by assumption.
    destruct (Dict.get rid (reservas st)) as [r|]; [|reflexivity]. simpl.
    now destruct (ReservaOut.sala_id r =? sala_id).
Qed.

Lemma eliminar_sala_cascade_witness :
  Dict.wf (reservas example_state)
  /\ eliminar_sala 1 example_state =
       (inr NoContent,
        mkState
          [(2, SalaOut.mk 2 "Sala B" 8 "Piso 2")]
          [(2, ReservaOut.mk 2 2 "Luis" "2026-01-21T09:00:00" "2026-01-21T09:30:00")]
          3 4)
  /\ eliminar_sala 7 example_state =
       (inl (HTTPException 404 msg_sala_no_encontrada), example_state).
Proof.
  pose (Hwf := inv_wf_reservas _ (Inv_run example_requests)).
  split; [exact Hwf|]. split.
  - exact (proj1 (eliminar_sala_cascade example_state 1 Hwf)).
  - exact (proj1 (eliminar_sala_cascade example_state 7 Hwf)).
Defined.

(** ** Creating a reservation *)

(** All that [crear_reserva] can end with when the room exists and both
    dates parse: [TypeError] when exactly one of the two values carries an
    offset, the 400 of the interval when the end is not after the start,
    the new id otherwise. *)
Lemma crear_reserva_parsed payload st inicio fin :
  Dict.mem (ReservaCreate.sala_id payload) (salas st) = true ->
  Datetime.fromisoformat (ReservaCreate.fecha_inicio payload) = Some inicio ->
  Datetime.fromisoformat (ReservaCreate.fecha_fin payload) = Some fin ->
  fst (crear_reserva payload st) =
    match Datetime.tzinfo fin, Datetime.tzinfo inicio with
    | None, None | Some _, Some _ =>
        if match Datetime.le fin inicio with Some b => b | None => false end
        then inl (HTTPException 400 msg_fecha_fin)
        else inr (Created (next_reserva_id st) "Creado")
    | _, _ => inl TypeError
    end.
Proof.
  intros Hmem Hi Hf. rewrite crear_reserva_eq, Hmem, Hi, Hf. simpl.
  unfold Datetime.le.
  destruct (Datetime.tzinfo fin), (Datetime.tzinfo inicio); simpl;
    try reflexivity; now destruct (_ <=? _).
Qed.

(** C3. With room 1 stored, a start that carries a UTC offset and an end
    that carries none both parse, and the request ends with an uncaught
    [TypeError] raised by the comparison: neither the 400 of the interval
    nor a new id. *)
Theorem crear_reserva_mixed_offsets :
  let st := run [POST_salas (SalaCreate.mk "Sala A" 4 "Piso 1")] in
  let payload :=
    ReservaCreate.mk 1 "Ana" "2026-01-20T10:00:00+00:00" "2026-01-20T11:00:00" in
  Dict.mem (ReservaCreate.sala_id payload) (salas st) = true
  /\ Datetime.fromisoformat (ReservaCreate.fecha_inicio payload) =
       Some (Datetime.mk_datetime 2026 1 20 10 0 0 0 (Some 0))
  /\ Datetime.fromisoformat (ReservaCreate.fecha_fin payload) =
       Some (Datetime.mk_datetime 2026 1 20 11 0 0 0 None)
  /\ app (POST_reservas payload) st = (inl TypeError, st).
Proof. vm_compute. repeat split. Qed.

(** ** Creating a room *)

(** C4. [crear_sala] raises the 400 of the duplicate name exactly when a
    stored room has the same name after [strip] and [lower]; it ends
    either that way, with the state untouched, or with the next room id,
    having stored under that id the stripped name and location.  Creating
    "Alpha" and then "  alpha " is refused. *)
Theorem crear_sala_duplicate_name :
  (forall st payload,
      fst (crear_sala payload st) = inl (HTTPException 400 msg_nombre_duplicado)
      <-> exists s, In s (Dict.values (salas st))
                    /\ Str.lower (Str.strip (SalaOut.nombre s)) =
                       Str.lower (Str.strip (SalaCreate.nombre payload)))
  /\ (forall st payload,
        let sala := SalaOut.mk (next_sala_id st)
                               (Str.strip (SalaCreate.nombre payload))
                               (SalaCreate.capacidad payload)
                               (Str.strip (SalaCreate.ubicacion payload)) in
        let st' := snd (crear_sala payload st) in
        crear_sala payload st = (inl (HTTPException 400 msg_nombre_duplicado), st)
        \/ (fst (crear_sala payload st) = inr (Created (next_sala_id st) "Creado")
            /\ Dict.get (next_sala_id st) (salas st') = Some sala
            /\ reservas st' = reservas st
            /\ next_sala_id st' = next_sala_id st + 1
            /\ next_reserva_id st' = next_reserva_id st))
  /\ replies [POST_salas (SalaCreate.mk "Alpha" 10 "Piso 3");
              POST_salas (SalaCreate.mk "  alpha " 2 "Piso 4")] initial =
       [inr (Created 1 "Creado"); inl (HTTPException 400 msg_nombre_duplicado)].
Proof.
  split; [|split].
  - intros st payload. rewrite crear_sala_eq.
    destruct (existsb _ _) eqn:Hex; simpl.
    + split; [intros _|reflexivity].
      apply existsb_exists in Hex as [s [Hin Hs]]. exists s.
      split; [assumption|]. now apply String.eqb_eq.
    + split; [discriminate|]. intros [s [Hin Hs]].
      assert (existsb (same_nombre (SalaCreate.nombre payload))
                      (Dict.values (salas st)) = true) as H; [|congruence].
      apply existsb_exists. exists s. split; [assumption|].
      now apply String.eqb_eq.
  - intros st payload sala st'. subst st'. rewrite crear_sala_eq.
    destruct (existsb _ _); [now left|]. right. simpl.
    repeat split. apply DictFacts.get_set_same.
  - reflexivity.
Qed.

Lemma crear_sala_duplicate_name_witness :
  exists s, In s (Dict.values (salas example_state))
            /\ Str.lower (Str.strip (SalaOut.nombre s)) =
               Str.lower (Str.strip " SALA b  ").
Proof.
  apply (proj1 (proj1 crear_sala_duplicate_name example_state
                  (SalaCreate.mk " SALA b  " 3 "Piso 9"))).
  reflexivity.
Defined.

(** C5. A name of three spaces passes the model's [min_length=1], and the
    room is created with the empty string as its stored name. *)
Theorem crear_sala_blank_name :
  let payload := SalaCreate.mk "   " 4 "Piso 1" in
  SalaCreate.valid payload = true
  /\ Str.strip (SalaCreate.nombre payload) = ""
  /\ app (POST_salas payload) initial =
       (inr (Created 1 "Creado"),
        mkState [(1, SalaOut.mk 1 "" 4 "Piso 1")] [] 2 1).
Proof. vm_compute. repeat split. Qed.

(** ** Dates that do not parse *)

(** C6, as first stated, fails: with no room 9999 and a start that does
    not parse, the request ends with the 400 of the unknown room, not with
    the 400 of the invalid date. *)
Lemma crear_reserva_bad_date_unknown_room :
  let payload :=
    ReservaCreate.mk 9999 "Ana" "20 de enero" "2026-01-20T11:00:00" in
  Datetime.fromisoformat (ReservaCreate.fecha_inicio payload) = None
  /\ Dict.mem (ReservaCreate.sala_id payload) (salas initial) = false
  /\ app (POST_reservas payload) initial =
       (inl (HTTPException 400 msg_sala_id_no_existe), initial)
  /\ fst (app (POST_reservas payload) initial) <>
       inl (HTTPException 400 msg_fecha_invalida).
Proof. vm_compute. repeat split. discriminate. Qed.

(** C6, amended. When the start or the end does not parse, [crear_reserva]
    raises the 400 of the invalid date if the room exists and the 400 of
    the unknown room if it does not; either way the state is untouched. *)
Theorem crear_reserva_bad_date (st : State) (payload : ReservaCreate.t) :
  Datetime.fromisoformat (ReservaCreate.fecha_inicio payload) = None
  \/ Datetime.fromisoformat (ReservaCreate.fecha_fin payload) = None ->
  crear_reserva payload st =
    if Dict.mem (ReservaCreate.sala_id payload) (salas st)
    then (inl (HTTPException 400 msg_fecha_invalida), st)
    else (inl (HTTPException 400 msg_sala_id_no_existe), st).
Proof.
  intros H. rewrite crear_reserva_eq.
  destruct (Dict.mem _ _); simpl; [|reflexivity].
  destruct H as [-> | ->]; [reflexivity|].
  now destruct (Datetime.fromisoformat _).
Qed.

Lemma crear_reserva_bad_date_witness :
  crear_reserva (ReservaCreate.mk 2 "Ana" "2026-01-20T10:00:00" "2026-01-20 25:00")
                example_state =
    (inl (HTTPException 400 msg_fecha_invalida), example_state).
Proof.
  apply (crear_reserva_bad_date example_state
           (ReservaCreate.mk 2 "Ana" "2026-01-20T10:00:00" "2026-01-20 25:00")).
  right. reflexivity.
Defined.

(** ** Changing the end of a reservation *)

(** C7. When the reservation exists, its stored start and the new end
    parse, and [nueva_fin <= inicio] is false, [modificar_reserva] answers
    with the reservation's id and the new end as it was sent; the
    reservation keeps its id, room, requester and start and gets the new
    end; every other key is found as before, the key order, the rooms and
    the two counters are unchanged. *)
Theorem modificar_reserva_frame
  (st : State) (reserva_id : Z) (reserva : ReservaOut.t)
  (payload : ReservaPatch.t) (inicio nueva_fin : Datetime.datetime) :
  Dict.get reserva_id (reservas st) = Some reserva ->
  Datetime.fromisoformat (ReservaOut.fecha_inicio reserva) = Some inicio ->
  Datetime.fromisoformat (ReservaPatch.fecha_fin payload) = Some nueva_fin ->
  Datetime.le nueva_fin inicio = Some false ->
  let reserva' :=
    ReservaOut.mk (ReservaOut.id reserva) (ReservaOut.sala_id reserva)
                  (ReservaOut.nombre_solicitante reserva)
                  (ReservaOut.fecha_inicio reserva)
                  (ReservaPatch.fecha_fin payload) in
  let st' := snd (modificar_reserva reserva_id payload st) in
  fst (modificar_reserva reserva_id payload st) =
    inr (Updated (ReservaOut.id reserva) "Actualizado"
                 (ReservaPatch.fecha_fin payload))
  /\ (forall rid, Dict.get rid (reservas st') =
                  if rid =? reserva_id then Some reserva'
                  else Dict.get rid (reservas st))
  /\ map fst (reservas st') = map fst (reservas st)
  /\ salas st' = salas st
  /\ next_sala_id st' = next_sala_id st
  /\ next_reserva_id st' = next_reserva_id st.
Proof.
  intros Hget Hi Hf Hle reserva' st'. subst st'.
  rewrite modificar_reserva_eq, Hget, Hi, Hf, Hle. simpl.
  repeat split.
  - intros rid. destruct (Z.eqb_spec rid reserva_id) as [->|Hne].
    + apply DictFacts.get_set_same.
    + now apply DictFacts.get_set_other.
  - apply DictFacts.keys_set_mem.
    destruct (Dict.mem reserva_id (reservas st)) eqn:Hmem; [reflexivity|].
    apply DictFacts.get_none_iff in Hmem. congruence.
Qed.

Lemma modificar_reserva_frame_witness :
  modificar_reserva 1 (ReservaPatch.mk "2026-01-20T12:00:00") example_state =
    (inr (Updated 1 "Actualizado" "2026-01-20T12:00:00"),
     mkState
       (salas example_state)
       [(1, ReservaOut.mk 1 1 "Ana" "2026-01-20T10:00:00" "2026-01-20T12:00:00");
        (2, ReservaOut.mk 2 2 "Luis" "2026-01-21T09:00:00" "2026-01-21T09:30:00");
        (3, ReservaOut.mk 3 1 "Eva" "2026-01-22T15:00:00" "2026-01-22T18:00:00")]
       3 4)
  /\ Dict.get 1 (reservas (snd (modificar_reserva 1
                 (ReservaPatch.mk "2026-01-20T12:00:00") example_state))) =
       Some (ReservaOut.mk 1 1 "Ana" "2026-01-20T10:00:00" "2026-01-20T12:00:00").
Proof.
  split; [reflexivity|].
  exact (proj1 (proj2
    (modificar_reserva_frame example_state 1
       (ReservaOut.mk 1 1 "Ana" "2026-01-20T10:00:00" "2026-01-20T11:00:00")
       (ReservaPatch.mk "2026-01-20T12:00:00")
       (Datetime.mk_datetime 2026 1 20 10 0 0 0 None)
       (Datetime.mk_datetime 2026 1 20 12 0 0 0 None)
       eq_refl eq_refl eq_refl eq_refl)) 1).
Defined.

(** ** Failures change nothing *)

(** C8. On a state whose reservation dictionary has unique keys, a request
    that ends with an exception, whichever it is, leaves the two
    dictionaries and the two counters exactly as they were. *)
Theorem failure_is_atomic (st st' : State) (r : request) (e : exn) :
  Dict.wf (reservas st) ->
  app r st = (inl e, st') ->
  st' = st.
Proof.
  intros Hwf. destruct r as [|sid|p|sid|p|sid|rid p|rid]; simpl.
  - discriminate.
  - unfold obtener_sala. run_monad.
    destruct (Dict.get _ _); [discriminate | now intros [= _ <-]].
  - destruct (SalaCreate.valid p); [|now intros [= _ <-]].
    rewrite crear_sala_eq.
    destruct (existsb _ _); [now intros [= _ <-] | discriminate].
  - rewrite eliminar_sala_eq by assumption.
    destruct (Dict.mem _ _); [discriminate | now intros [= _ <-]].
  - destruct (ReservaCreate.valid p); [|now intros [= _ <-]].
    rewrite crear_reserva_eq.
    destruct (negb _); [now intros [= _ <-]|].
    destruct (Datetime.fromisoformat _); [|now intros [= _ <-]].
    destruct (Datetime.fromisoformat _); [|now intros [= _ <-]].
    destruct (Datetime.le _ _) as [[|]|];
      [now intros [= _ <-] | discriminate | now intros [= _ <-]].
  - unfold historial_reservas. run_monad. discriminate.
  - rewrite modificar_reserva_eq.
    destruct (Dict.get _ _); [|now intros [= _ <-]].
    destruct (Datetime.fromisoformat _); [|now intros [= _ <-]].
    destruct (Datetime.fromisoformat _); [|now intros [= _ <-]].
    destruct (Datetime.le _ _) as [[|]|];
      [now intros [= _ <-] | discriminate | now intros [= _ <-]].
  - rewrite cancelar_reserva_eq.
    destruct (Dict.mem _ _); [discriminate | now intros [= _ <-]].
Qed.

Lemma failure_is_atomic_witness :
  let r := PATCH_reserva 3 (ReservaPatch.mk "2026-01-22T15:00:00") in
  fst (app r example_state) = inl (HTTPException 400 msg_fecha_fin)
  /\ snd (app r example_state) = example_state.
Proof.
  intros r. split; [reflexivity|].
  apply (failure_is_atomic example_state (snd (app r example_state)) r
           (HTTPException 400 msg_fecha_fin)).
  - exact (inv_wf_reservas _ (Inv_run example_requests)).
  - reflexivity.
Defined.

(** ** The worked example *)

(** C9. From the initial state: the room gets id 1, the reservation gets
    id 1, an end at 09:00 is refused with the 400 of the interval, an end
    at 12:00 is accepted and echoed, and once room 1 is deleted the
    unfiltered list of reservations, which held reservation 1 before, is
    empty. *)
Theorem worked_example :
  replies
    [POST_salas (SalaCreate.mk "Sala A" 4 "Piso 1");
     POST_reservas (ReservaCreate.mk 1 "Ana" "2026-01-20T10:00:00"
                                     "2026-01-20T11:00:00");
     PATCH_reserva 1 (ReservaPatch.mk "2026-01-20T09:00:00");
     PATCH_reserva 1 (ReservaPatch.mk "2026-01-20T12:00:00");
     GET_reservas None;
     DELETE_sala 1;
     GET_reservas None]
    initial =
    [inr (Created 1 "Creado");
     inr (Created 1 "Creado");
     inl (HTTPException 400 msg_fecha_fin);
     inr (Updated 1 "Actualizado" "2026-01-20T12:00:00");
     inr (ReservaList [ReservaOut.mk 1 1 "Ana" "2026-01-20T10:00:00"
                                     "2026-01-20T12:00:00"]);
     inr NoContent;
     inr (ReservaList [])].
Proof. reflexivity. Qed.

(** ** Stored dates *)

(** C10. In every state reached from the initial one, both dates of every
    stored reservation parse; hence, when [modificar_reserva] raises the
    400 of the invalid date there, it is the new end that does not parse. *)
Theorem stored_dates_parse (rs : list request) :
  Forall (fun r => parses (ReservaOut.fecha_inicio r)
                   /\ parses (ReservaOut.fecha_fin r))
         (Dict.values (reservas (run rs)))
  /\ forall reserva_id payload,
       fst (modificar_reserva reserva_id payload (run rs)) =
         inl (HTTPException 400 msg_fecha_invalida) ->
       Datetime.fromisoformat (ReservaPatch.fecha_fin payload) = None.
Proof.
  pose proof (inv_fechas _ (Inv_run rs)) as Hf. split; [exact Hf|].
  intros reserva_id payload. rewrite modificar_reserva_eq.
  destruct (Dict.get _ _) as [reserva|] eqn:Hget; [|discriminate].
  destruct (ValuesFacts.Forall_values_get _ _ _ _ Hf Hget) as [Hi _].
  unfold parses in Hi.
  destruct (Datetime.fromisoformat (ReservaOut.fecha_inicio reserva));
    [|contradiction].
  destruct (Datetime.fromisoformat (ReservaPatch.fecha_fin payload));
    [|reflexivity].
  destruct (Datetime.le _ _) as [[|]|]; discriminate.
Qed.

Lemma stored_dates_parse_witness :
  Datetime.fromisoformat "2026-13-01T10:00:00" = None.
Proof.
  apply (proj2 (stored_dates_parse example_requests) 2
           (ReservaPatch.mk "2026-13-01T10:00:00")).
  reflexivity.
Defined.

(** * Further properties *)

(** ** [strip] *)

Module StrFacts.
Import Str.

Lemma rstrip_head c s :
  isspace c = false -> exists r, rstrip (String c s) = String c r.
Proof.
  intros Hc. simpl. destruct (rstrip s) as [|a r].
  - rewrite Hc. now exists EmptyString.
  - now exists (String a r).
Qed.

Lemma rstrip_idem s : rstrip (rstrip s) = rstrip s.
Proof.
  induction s as [|c s IH]; simpl; [reflexivity|].
  destruct (rstrip s) as [|a r] eqn:Hr.
  - destruct (isspace c) eqn:Hc; simpl; [reflexivity | now rewrite Hc].
  - change (rstrip (String c (String a r))) with
      (match rstrip (String a r) with
       | EmptyString => if isspace c then EmptyString else String c EmptyString
       | r' => String c r'
       end).
    now rewrite IH.
Qed.

Lemma lstrip_head s :
  lstrip s = EmptyString
  \/ exists c s', lstrip s = String c s' /\ isspace c = false.
Proof.
  induction s as [|c s IH]; simpl; [now left|].
  destruct (isspace c) eqn:Hc; [exact IH|]. right. now exists c, s.
Qed.

(** Stripping a stripped string changes nothing. *)
Lemma strip_idem s : strip (strip s) = strip s.
Proof.
  unfold strip. destruct (lstrip_head s) as [->|[c [s' [-> Hc]]]]; [reflexivity|].
  destruct (rstrip_head c s' Hc) as [r Hr]. rewrite Hr.
  simpl lstrip. rewrite Hc, <- Hr. apply rstrip_idem.
Qed.

End StrFacts.

Lemma normal_strip nombre : normal (Str.strip nombre) = normal nombre.
Proof. unfold normal. now rewrite StrFacts.strip_idem. Qed.

(** ** Entries of a dictionary *)

Module EntryFacts.
Import Dict.

Section Lemmas.
Context {V : Type}.
Implicit Types (d : dict V) (k : Z) (v : V).

Lemma Forall_set (P : Z * V -> Prop) k v d :
  Forall P d -> P (k, v) -> Forall P (set k v d).
Proof.
  rewrite !Forall_forall. intros H Hkv x Hx.
  apply DictFacts.In_set in Hx as [->|Hx]; auto.
Qed.

Lemma Forall_filter (P : Z * V -> Prop) (p : Z * V -> bool) d :
  Forall P d -> Forall P (filter p d).
Proof.
  rewrite !Forall_forall. intros H x Hx. apply filter_In in Hx as [Hx _]. auto.
Qed.

(** A key above every key of [d] is not in [d]. *)
Lemma fresh_key (Q : Z * V -> Prop) (lo : Z) k d :
  Forall (fun kv => Q kv /\ lo <= fst kv < k) d -> mem k d = false.
Proof.
  intros H. apply DictFacts.mem_false_iff. intros Hin.
  apply in_map_iff in Hin as [kv [Hk Hin]].
  rewrite Forall_forall in H. specialize (H kv Hin). lia.
Qed.

Lemma set_new k v d : mem k d = false -> set k v d = d ++ [(k, v)].
Proof.
  induction d as [|[k0 v0] d IH]; simpl; [reflexivity|].
  destruct (Z.eqb_spec k0 k) as [->|Hne]; simpl; [discriminate|].
  intros H. now rewrite IH.
Qed.

Lemma values_set_new k v d :
  mem k d = false -> values (set k v d) = values d ++ [v].
Proof.
  intros H. unfold values. now rewrite set_new, map_app.
Qed.

Lemma set_set k v d : set k v (set k v d) = set k v d.
Proof.
  induction d as [|[k0 v0] d IH]; simpl.
  - now rewrite Z.eqb_refl.
  - destruct (Z.eqb_spec k0 k) as [->|Hne]; simpl.
    + now rewrite Z.eqb_refl.
    + destruct (Z.eqb_spec k0 k); [contradiction | now rewrite IH].
Qed.

Lemma mem_remove_same k d : mem k (remove k d) = false.
Proof.
  apply DictFacts.get_none_iff, DictFacts.get_remove_same.
Qed.

Lemma NoDup_map_filter {B} (f : V -> B) (p : Z * V -> bool) d :
  NoDup (map f (values d)) -> NoDup (map f (values (filter p d))).
Proof.
  unfold values. induction d as [|kv d IH]; simpl; [auto|].
  intros Hnd. inversion Hnd as [|? ? Hn Hnd']; subst.
  destruct (p kv); simpl; [|auto].
  constructor; [|auto]. intros Hin. apply Hn.
  rewrite map_map in *. apply in_map_iff in Hin as [x [Hx Hin]].
  apply filter_In in Hin as [Hin _]. apply in_map_iff. now exists x.
Qed.

End Lemmas.
End EntryFacts.

(** ** [Consistent] holds of every reachable state *)

Lemma Consistent_initial : Consistent initial.
Proof. split; simpl; try constructor; lia. Qed.

Lemma existsb_same_nombre_false nombre vs :
  existsb (same_nombre nombre) vs = false ->
  ~ In (normal nombre) (map (fun s => normal (SalaOut.nombre s)) vs).
Proof.
  intros Hex Hin. apply in_map_iff in Hin as [s [Hs Hin]].
  assert (existsb (same_nombre nombre) vs = true) as H; [|congruence].
  apply existsb_exists. exists s. split; [assumption|].
  apply String.eqb_eq. exact Hs.
Qed.

Lemma Consistent_crear_sala payload st :
  1 <= SalaCreate.capacidad payload ->
  Consistent st -> Consistent (snd (crear_sala payload st)).
Proof.
  intros Hcap H. rewrite crear_sala_eq.
  destruct (existsb _ _) eqn:Hex; simpl; [exact H|].
  destruct H as [Hn Hm Hs Hr Hnd Hss Hrs Hc Hi].
  pose proof (EntryFacts.fresh_key _ _ _ _ Hs) as Hfresh.
  split; simpl; try assumption; try lia.
  - apply EntryFacts.Forall_set; [|simpl; lia].
    eapply Forall_impl; [|exact Hs]. simpl. intros kv Hkv. lia.
  - rewrite EntryFacts.values_set_new, map_app by assumption. simpl.
    apply NoDup_app; [assumption | repeat constructor; simpl; tauto |].
    intros x Hx [<-|[]]. rewrite normal_strip in Hx.
    exact (existsb_same_nombre_false _ _ Hex Hx).
  - apply ValuesFacts.Forall_values_set; [assumption|]. simpl.
    now rewrite !StrFacts.strip_idem.
  - now apply ValuesFacts.Forall_values_set.
Qed.

Lemma Consistent_eliminar_sala sala_id st :
  Dict.wf (reservas st) ->
  Consistent st -> Consistent (snd (eliminar_sala sala_id st)).
Proof.
  intros Hwf H. rewrite eliminar_sala_eq by assumption.
  destruct (Dict.mem _ _); simpl; [|exact H].
  destruct H as [Hn Hm Hs Hr Hnd Hss Hrs Hc Hi].
  split; simpl; try assumption.
  - now apply EntryFacts.Forall_filter.
  - now apply EntryFacts.Forall_filter.
  - now apply EntryFacts.NoDup_map_filter.
  - apply ValuesFacts.Forall_values_filter. intros [k s] Hin _.
    exact (ValuesFacts.Forall_values_In _ _ _ _ Hss Hin).
  - apply ValuesFacts.Forall_values_filter. intros [k r] Hin _.
    exact (ValuesFacts.Forall_values_In _ _ _ _ Hrs Hin).
  - apply ValuesFacts.Forall_values_filter. intros [k s] Hin _.
    exact (ValuesFacts.Forall_values_In _ _ _ _ Hc Hin).
  - apply ValuesFacts.Forall_values_filter. intros [k r] Hin _.
    exact (ValuesFacts.Forall_values_In _ _ _ _ Hi Hin).
Qed.

Lemma Consistent_crear_reserva payload st :
  Consistent st -> Consistent (snd (crear_reserva payload st)).
Proof.
  intros H. rewrite crear_reserva_eq.
  destruct (negb _); simpl; [exact H|].
  destruct (Datetime.fromisoformat (ReservaCreate.fecha_inicio payload)) eqn:Hini;
    [|exact H].
  destruct (Datetime.fromisoformat (ReservaCreate.fecha_fin payload)) eqn:Hfin;
    [|exact H].
  destruct (Datetime.le _ _) as [[|]|] eqn:Hle; simpl; try exact H.
  destruct H as [Hn Hm Hs Hr Hnd Hss Hrs Hc Hi].
  split; simpl; try assumption; try lia.
  - apply EntryFacts.Forall_set; [|simpl; lia].
    eapply Forall_impl; [|exact Hr]. simpl. intros kv Hkv. lia.
  - apply ValuesFacts.Forall_values_set; [assumption|]. simpl.
    apply StrFacts.strip_idem.
  - apply ValuesFacts.Forall_values_set; [assumption|].
    unfold interval_ok. simpl. now rewrite Hini, Hfin, Hle.
Qed.

Lemma Consistent_modificar_reserva reserva_id payload st :
  Consistent st -> Consistent (snd (modificar_reserva reserva_id payload st)).
Proof.
  intros H. rewrite modificar_reserva_eq.
  destruct (Dict.get _ _) as [reserva|] eqn:Hget; [|exact H].
  destruct (Datetime.fromisoformat (ReservaOut.fecha_inicio reserva)) eqn:Hini;
    [|exact H].
  destruct (Datetime.fromisoformat (ReservaPatch.fecha_fin payload)) eqn:Hfin;
    [|exact H].
  destruct (Datetime.le _ _) as [[|]|] eqn:Hle; simpl; try exact H.
  destruct H as [Hn Hm Hs Hr Hnd Hss Hrs Hc Hi].
  split; simpl; try assumption.
  - apply EntryFacts.Forall_set; [assumption|]. simpl.
    apply DictFacts.get_In in Hget. rewrite Forall_forall in Hr.
    exact (Hr _ Hget).
  - apply ValuesFacts.Forall_values_set; [assumption|]. simpl.
    exact (ValuesFacts.Forall_values_get _ _ _ _ Hrs Hget).
  - apply ValuesFacts.Forall_values_set; [assumption|].
    unfold interval_ok. simpl. now rewrite Hini, Hfin, Hle.
Qed.

Lemma Consistent_cancelar_reserva reserva_id st :
  Consistent st -> Consistent (snd (cancelar_reserva reserva_id st)).
Proof.
  intros H. rewrite cancelar_reserva_eq.
  destruct (Dict.mem _ _); simpl; [|exact H].
  destruct H as [Hn Hm Hs Hr Hnd Hss Hrs Hc Hi].
  split; simpl; try assumption.
  - now apply EntryFacts.Forall_filter.
  - apply ValuesFacts.Forall_values_filter. intros [k r] Hin _.
    exact (ValuesFacts.Forall_values_In _ _ _ _ Hrs Hin).
  - apply ValuesFacts.Forall_values_filter. intros [k r] Hin _.
    exact (ValuesFacts.Forall_values_In _ _ _ _ Hi Hin).
Qed.

Lemma Consistent_serve st r : Inv st -> Consistent st -> Consistent (serve st r).
Proof.
  intros HI H. unfold serve.
  destruct r as [|sid|p|sid|p|sid|rid p|rid]; simpl.
  - exact H.
  - now rewrite (proj1 (proj2 (read_only_state st))).
  - destruct (SalaCreate.valid p) eqn:Hv; [|exact H].
    apply Consistent_crear_sala; [|exact H].
    unfold SalaCreate.valid in Hv.
    apply andb_prop in Hv as [Hv _]. apply andb_prop in Hv as [_ Hv]. lia.
  - apply Consistent_eliminar_sala; [apply HI | exact H].
  - destruct (ReservaCreate.valid p); [now apply Consistent_crear_reserva | exact H].
  - exact H.
  - now apply Consistent_modificar_reserva.
  - now apply Consistent_cancelar_reserva.
Qed.

Lemma Consistent_fold rs : forall st,
  Inv st -> Consistent st -> Consistent (fold_left serve rs st).
Proof.
  induction rs as [|r rs IH]; intros st HI H; simpl; [exact H|].
  apply IH; [now apply Inv_serve | now apply Consistent_serve].
Qed.

Lemma Consistent_run rs : Consistent (run rs).
Proof. apply Consistent_fold; [apply Inv_initial | apply Consistent_initial]. Qed.

Lemma run_app rs1 rs2 : run (rs1 ++ rs2) = fold_left serve rs2 (run rs1).
Proof. unfold run. apply fold_left_app. Qed.

(** ** Identifiers *)

(** X1. In every state reached from the initial one, each room and each
    reservation is stored under its own [id], and every key is at least 1
    and below the counter that hands out the next id. *)
Theorem ids_are_keys (rs : list request) :
  Forall (fun kv => SalaOut.id (snd kv) = fst kv
                    /\ 1 <= fst kv < next_sala_id (run rs))
         (salas (run rs))
  /\ Forall (fun kv => ReservaOut.id (snd kv) = fst kv
                       /\ 1 <= fst kv < next_reserva_id (run rs))
            (reservas (run rs)).
Proof.
  split; [apply con_ids_salas | apply con_ids_reservas]; apply Consistent_run.
Qed.

Lemma counters_serve st r :
  Inv st ->
  next_sala_id st <= next_sala_id (serve st r)
  /\ next_reserva_id st <= next_reserva_id (serve st r).
Proof.
  intros HI. unfold serve.
  destruct r as [|sid|p|sid|p|sid|rid p|rid]; simpl.
  - lia.
  - rewrite (proj1 (proj2 (read_only_state st))). lia.
  - destruct (SalaCreate.valid p); simpl; [|lia].
    rewrite crear_sala_eq. destruct (existsb _ _); simpl; lia.
  - rewrite eliminar_sala_eq by apply HI.
    destruct (Dict.mem _ _); simpl; lia.
  - destruct (ReservaCreate.valid p); simpl; [|lia].
    rewrite crear_reserva_eq. destruct (negb _); simpl; [lia|].
    destruct (Datetime.fromisoformat _); [|simpl; lia].
    destruct (Datetime.fromisoformat _); [|simpl; lia].
    destruct (Datetime.le _ _) as [[|]|]; simpl; lia.
  - lia.
  - rewrite modificar_reserva_eq. destruct (Dict.get _ _); [|simpl; lia].
    destruct (Datetime.fromisoformat _); [|simpl; lia].
    destruct (Datetime.fromisoformat _); [|simpl; lia].
    destruct (Datetime.le _ _) as [[|]|]; simpl; lia.
  - rewrite cancelar_reserva_eq. destruct (Dict.mem _ _); simpl; lia.
Qed.

Lemma counters_fold rs : forall st,
  Inv st ->
  next_sala_id st <= next_sala_id (fold_left serve rs st)
  /\ next_reserva_id st <= next_reserva_id (fold_left serve rs st).
Proof.
  induction rs as [|r rs IH]; intros st HI; simpl; [lia|].
  pose proof (counters_serve st r HI).
  pose proof (IH (serve st r) (Inv_serve st r HI)). lia.
Qed.

Lemma POST_salas_created p st i m :
  fst (app (POST_salas p) st) = inr (Created i m) ->
  i = next_sala_id st /\ next_sala_id (serve st (POST_salas p)) = i + 1.
Proof.
  unfold serve. simpl. destruct (SalaCreate.valid p); [|discriminate].
  rewrite crear_sala_eq. destruct (existsb _ _); [discriminate|]. simpl.
  intros [= <- _]. split; reflexivity.
Qed.

Lemma POST_reservas_created p st i m :
  fst (app (POST_reservas p) st) = inr (Created i m) ->
  i = next_reserva_id st /\ next_reserva_id (serve st (POST_reservas p)) = i + 1.
Proof.
  unfold serve. simpl. destruct (ReservaCreate.valid p); [|discriminate].
  rewrite crear_reserva_eq. destruct (negb _); [discriminate|].
  destruct (Datetime.fromisoformat _); [|discriminate].
  destruct (Datetime.fromisoformat _); [|discriminate].
  destruct (Datetime.le _ _) as [[|]|]; try discriminate. simpl.
  intros [= <- _]. split; reflexivity.
Qed.

(** X2. A room id is never handed out twice: when a creation answered
    with id [i], every later creation in the same run, whatever was
    created or deleted in between, answers with an id above [i]. *)
Theorem sala_ids_never_reused
  (rs1 rs2 : list request) (p p' : SalaCreate.t) (i j : Z) (m m' : string) :
  fst (app (POST_salas p) (run rs1)) = inr (Created i m) ->
  fst (app (POST_salas p') (run (rs1 ++ POST_salas p :: rs2))) =
    inr (Created j m') ->
  i < j.
Proof.
  rewrite run_app. simpl fold_left. intros H1 H2.
  pose proof (counters_fold rs2 (serve (run rs1) (POST_salas p))
                (Inv_serve _ _ (Inv_run rs1))) as [Hle _].
  apply POST_salas_created in H1 as [-> H1].
  apply POST_salas_created in H2 as [-> _]. lia.
Qed.

Lemma sala_ids_never_reused_witness : 1 < 3.
Proof.
  apply (sala_ids_never_reused []
           [POST_salas (SalaCreate.mk "Sala B" 8 "Piso 2"); DELETE_sala 1; DELETE_sala 2]
           (SalaCreate.mk "Sala A" 4 "Piso 1") (SalaCreate.mk "Sala A" 6 "Piso 5")
           1 3 "Creado" "Creado"); reflexivity.
Defined.

(** X3. A reservation id is never handed out twice: a later creation in
    the same run answers with an id above every id answered before. *)
Theorem reserva_ids_never_reused
  (rs1 rs2 : list request) (p p' : ReservaCreate.t) (i j : Z) (m m' : string) :
  fst (app (POST_reservas p) (run rs1)) = inr (Created i m) ->
  fst (app (POST_reservas p') (run (rs1 ++ POST_reservas p :: rs2))) =
    inr (Created j m') ->
  i < j.
Proof.
  rewrite run_app. simpl fold_left. intros H1 H2.
  pose proof (counters_fold rs2 (serve (run rs1) (POST_reservas p))
                (Inv_serve _ _ (Inv_run rs1))) as [_ Hle].
  apply POST_reservas_created in H1 as [-> H1].
  apply POST_reservas_created in H2 as [-> _]. lia.
Qed.

Lemma reserva_ids_never_reused_witness : 1 < 2.
Proof.
  apply (reserva_ids_never_reused
           [POST_salas (SalaCreate.mk "Sala A" 4 "Piso 1")]
           [DELETE_reserva 1]
           (ReservaCreate.mk 1 "Ana" "2026-01-20T10:00:00" "2026-01-20T11:00:00")
           (ReservaCreate.mk 1 "Eva" "2026-01-22T15:00:00" "2026-01-22T18:00:00")
           1 2 "Creado" "Creado"); reflexivity.
Defined.

(** ** Listing order *)

Lemma referential_integrity_values rs :
  Forall (fun r => Dict.mem (ReservaOut.sala_id r) (salas (run rs)) = true)
         (Dict.values (reservas (run rs))).
Proof. exact (inv_sala_id _ (Inv_run rs)). Qed.

(** X4. In a reachable state a successful [POST /salas] puts the new room
    last: the list of rooms afterwards is the list before followed by the
    new room, which carries the answered id, the stripped name and
    location and the capacity as sent; [obtener_sala] on that id returns
    the same room. *)
Theorem crear_sala_appends
  (rs : list request) (payload : SalaCreate.t) (i : Z) (m : string) :
  fst (app (POST_salas payload) (run rs)) = inr (Created i m) ->
  let st' := snd (app (POST_salas payload) (run rs)) in
  let sala := SalaOut.mk i (Str.strip (SalaCreate.nombre payload))
                         (SalaCreate.capacidad payload)
                         (Str.strip (SalaCreate.ubicacion payload)) in
  listar_salas st' =
    (inr (SalaList (Dict.values (salas (run rs)) ++ [sala])), st')
  /\ obtener_sala i st' = (inr (SalaDetail sala), st').
Proof.
  intros H st' sala. subst st' sala.
  pose proof (con_ids_salas _ (Consistent_run rs)) as Hids.
  pose proof (EntryFacts.fresh_key _ _ _ _ Hids) as Hfresh.
  revert H. simpl. destruct (SalaCreate.valid payload); [|discriminate].
  rewrite crear_sala_eq. destruct (existsb _ _); [discriminate|]. simpl.
  intros [= <- _]. unfold listar_salas, obtener_sala. run_monad.
  rewrite EntryFacts.values_set_new by assumption.
  now rewrite DictFacts.get_set_same.
Qed.

Lemma crear_sala_appends_witness :
  let st' := snd (app (POST_salas (SalaCreate.mk " Sala C" 2 "Piso 3 "))
                      example_state) in
  listar_salas st' =
    (inr (SalaList [SalaOut.mk 1 "Sala A" 4 "Piso 1";
                    SalaOut.mk 2 "Sala B" 8 "Piso 2";
                    SalaOut.mk 3 "Sala C" 2 "Piso 3"]), st').
Proof.
  exact (proj1 (crear_sala_appends example_requests
                  (SalaCreate.mk " Sala C" 2 "Piso 3 ") 3 "Creado" eq_refl)).
Defined.

(** X5. In a reachable state a successful [POST /reservas] puts the new
    reservation last, in the unfiltered list and in the list filtered by
    its room; it carries the answered id, the room id and the two dates
    as sent, and the stripped name of the requester. *)
Theorem crear_reserva_appends
  (rs : list request) (payload : ReservaCreate.t) (i : Z) (m : string) :
  fst (app (POST_reservas payload) (run rs)) = inr (Created i m) ->
  let st' := snd (app (POST_reservas payload) (run rs)) in
  let reserva :=
    ReservaOut.mk i (ReservaCreate.sala_id payload)
                  (Str.strip (ReservaCreate.nombre_solicitante payload))
                  (ReservaCreate.fecha_inicio payload)
                  (ReservaCreate.fecha_fin payload) in
  historial_reservas None st' =
    (inr (ReservaList (Dict.values (reservas (run rs)) ++ [reserva])), st')
  /\ historial_reservas (Some (ReservaCreate.sala_id payload)) st' =
       (inr (ReservaList
               (filter (fun r => ReservaOut.sala_id r =? ReservaCreate.sala_id payload)
                       (Dict.values (reservas (run rs))) ++ [reserva])), st').
Proof.
  intros H st' reserva. subst st' reserva.
  pose proof (con_ids_reservas _ (Consistent_run rs)) as Hids.
  pose proof (EntryFacts.fresh_key _ _ _ _ Hids) as Hfresh.
  revert H. simpl. destruct (ReservaCreate.valid payload); [|discriminate].
  rewrite crear_reserva_eq. destruct (negb _); [discriminate|].
  destruct (Datetime.fromisoformat _); [|discriminate].
  destruct (Datetime.fromisoformat _); [|discriminate].
  destruct (Datetime.le _ _) as [[|]|]; try discriminate. simpl.
  intros [= <- _]. unfold historial_reservas. run_monad.
  rewrite EntryFacts.values_set_new by assumption. split; [reflexivity|].
  rewrite filter_app. simpl. now rewrite Z.eqb_refl.
Qed.

Lemma crear_reserva_appends_witness :
  let st' := snd (app (POST_reservas
                         (ReservaCreate.mk 2 " Eva " "2026-02-01T08:00:00"
                                           "2026-02-01T09:00:00"))
                      example_state) in
  historial_reservas (Some 2) st' =
    (inr (ReservaList
            [ReservaOut.mk 2 2 "Luis" "2026-01-21T09:00:00" "2026-01-21T09:30:00";
             ReservaOut.mk 4 2 "Eva" "2026-02-01T08:00:00" "2026-02-01T09:00:00"]),
     st').
Proof.
  exact (proj2 (crear_reserva_appends example_requests
                  (ReservaCreate.mk 2 " Eva " "2026-02-01T08:00:00"
                                    "2026-02-01T09:00:00") 4 "Creado" eq_refl)).
Defined.

(** X6. In a reachable state, asking for the reservations of a room id
    that is not stored answers 200 with the empty list. *)
Theorem historial_unknown_sala (rs : list request) (sala_id : Z) :
  Dict.mem sala_id (salas (run rs)) = false ->
  historial_reservas (Some sala_id) (run rs) = (inr (ReservaList []), run rs).
Proof.
  intros Hmem. unfold historial_reservas. run_monad. do 2 f_equal.
  pose proof (referential_integrity_values rs) as Hfk.
  induction (Dict.values (reservas (run rs))) as [|r l IH]; [reflexivity|].
  inversion Hfk as [|? ? Hr Hl]; subst. simpl.
  destruct (Z.eqb_spec (ReservaOut.sala_id r) sala_id) as [Heq|_]; [|auto].
  congruence.
Qed.

Lemma historial_unknown_sala_witness :
  historial_reservas (Some 7) example_state =
    (inr (ReservaList []), example_state).
Proof. exact (historial_unknown_sala example_requests 7 eq_refl). Defined.

(** X7. In a reachable state [obtener_sala] and [listar_salas] agree:
    [GET /salas/k] answers with room [s] exactly when [s] is in the list of
    rooms and has id [k]. *)
Theorem obtener_sala_agrees_with_listar
  (rs : list request) (k : Z) (s : SalaOut.t) :
  fst (obtener_sala k (run rs)) = inr (SalaDetail s)
  <-> In s (Dict.values (salas (run rs))) /\ SalaOut.id s = k.
Proof.
  pose proof (con_ids_salas _ (Consistent_run rs)) as Hids.
  pose proof (inv_wf_salas _ (Inv_run rs)) as Hwf.
  rewrite Forall_forall in Hids.
  unfold obtener_sala. run_monad. split.
  - destruct (Dict.get k (salas (run rs))) as [s'|] eqn:Hget; [|discriminate].
    simpl. intros [= ->]. apply DictFacts.get_In in Hget.
    split; [|exact (proj1 (Hids _ Hget))].
    unfold Dict.values. change s with (snd (k, s)). now apply in_map.
  - intros [Hin Hid]. unfold Dict.values in Hin.
    apply in_map_iff in Hin as [[k' s'] [Hs Hin]]. simpl in Hs. subst s'.
    pose proof (proj1 (Hids _ Hin)) as Hk. simpl in Hk.
    assert (k' = k) as -> by congruence.
    now rewrite (DictFacts.In_get _ _ _ Hwf Hin).
Qed.

Lemma obtener_sala_agrees_with_listar_witness :
  In (SalaOut.mk 2 "Sala B" 8 "Piso 2") (Dict.values (salas example_state))
  /\ SalaOut.id (SalaOut.mk 2 "Sala B" 8 "Piso 2") = 2.
Proof.
  exact (proj1 (obtener_sala_agrees_with_listar example_requests 2
                  (SalaOut.mk 2 "Sala B" 8 "Piso 2")) eq_refl).
Defined.

(** ** What is stored *)

(** X8. In every reachable state no two stored rooms have the same name
    after [strip] and [lower]. *)
Theorem nombres_unique (rs : list request) :
  NoDup (map (fun s => Str.lower (Str.strip (SalaOut.nombre s)))
             (Dict.values (salas (run rs)))).
Proof. exact (con_nombres _ (Consistent_run rs)). Qed.

(** X9. In every reachable state the stored room names and locations and
    the stored requester names are their own [strip]: none has leading or
    trailing whitespace. *)
Theorem stored_names_stripped (rs : list request) :
  Forall (fun s => Str.strip (SalaOut.nombre s) = SalaOut.nombre s
                   /\ Str.strip (SalaOut.ubicacion s) = SalaOut.ubicacion s)
         (Dict.values (salas (run rs)))
  /\ Forall (fun r => Str.strip (ReservaOut.nombre_solicitante r) =
                      ReservaOut.nombre_solicitante r)
            (Dict.values (reservas (run rs))).
Proof.
  split; [apply con_salas_stripped | apply con_reservas_stripped];
    apply Consistent_run.
Qed.

(** X10. In every reachable state every stored room has a capacity of at
    least 1, as the request model demands. *)
Theorem capacidad_positive (rs : list request) :
  Forall (fun s => 1 <= SalaOut.capacidad s) (Dict.values (salas (run rs))).
Proof. exact (con_capacidad _ (Consistent_run rs)). Qed.

(** X11. In every reachable state, for every stored reservation the two
    dates parse to comparable values and the end is strictly after the
    start: [fin <= inicio] evaluates to [False]. *)
Theorem stored_intervals_ordered (rs : list request) :
  Forall (fun r => exists inicio fin,
              Datetime.fromisoformat (ReservaOut.fecha_inicio r) = Some inicio
              /\ Datetime.fromisoformat (ReservaOut.fecha_fin r) = Some fin
              /\ Datetime.le fin inicio = Some false)
         (Dict.values (reservas (run rs))).
Proof.
  eapply Forall_impl; [|exact (con_intervals _ (Consistent_run rs))].
  intros r. unfold interval_ok.
  destruct (Datetime.fromisoformat (ReservaOut.fecha_inicio r)) as [inicio|];
    [|discriminate].
  destruct (Datetime.fromisoformat (ReservaOut.fecha_fin r)) as [fin|];
    [|discriminate].
  destruct (Datetime.le fin inicio) as [[|]|] eqn:Hle; try discriminate.
  intros _. now exists inicio, fin.
Qed.

(** ** Reservations *)

Lemma le_refl (d : Datetime.datetime) : Datetime.le d d = Some true.
Proof.
  unfold Datetime.le. destruct (Datetime.tzinfo d); now rewrite Z.leb_refl.
Qed.

(** X12. A reservation whose end is the same string as its start is
    refused: when the room exists and the date parses, [crear_reserva]
    raises the 400 of the interval and stores nothing. *)
Theorem crear_reserva_empty_interval
  (st : State) (sala_id : Z) (nombre fecha : string) :
  Dict.mem sala_id (salas st) = true ->
  Datetime.fromisoformat fecha <> None ->
  crear_reserva (ReservaCreate.mk sala_id nombre fecha fecha) st =
    (inl (HTTPException 400 msg_fecha_fin), st).
Proof.
  intros Hmem Hp. rewrite crear_reserva_eq. simpl. rewrite Hmem. simpl.
  destruct (Datetime.fromisoformat fecha) as [d|]; [|contradiction].
  now rewrite le_refl.
Qed.

Lemma crear_reserva_empty_interval_witness :
  crear_reserva (ReservaCreate.mk 1 "Ana" "2026-03-01T10:00:00+02:00"
                                  "2026-03-01T10:00:00+02:00") example_state =
    (inl (HTTPException 400 msg_fecha_fin), example_state).
Proof.
  apply (crear_reserva_empty_interval example_state 1 "Ana"
           "2026-03-01T10:00:00+02:00"); [reflexivity | discriminate].
Defined.

(** X13. When the room exists, both dates parse and [fin <= inicio] is
    false, [crear_reserva] answers with the current value of
    [next_reserva_id], stores under it the reservation with the dates as
    sent and the requester name stripped, advances that counter by one
    and leaves every other key, the rooms and [next_sala_id] as they
    were. *)
Theorem crear_reserva_frame
  (st : State) (payload : ReservaCreate.t) (inicio fin : Datetime.datetime) :
  Dict.mem (ReservaCreate.sala_id payload) (salas st) = true ->
  Datetime.fromisoformat (ReservaCreate.fecha_inicio payload) = Some inicio ->
  Datetime.fromisoformat (ReservaCreate.fecha_fin payload) = Some fin ->
  Datetime.le fin inicio = Some false ->
  let st' := snd (crear_reserva payload st) in
  let n := next_reserva_id st in
  let reserva :=
    ReservaOut.mk n (ReservaCreate.sala_id payload)
                  (Str.strip (ReservaCreate.nombre_solicitante payload))
                  (ReservaCreate.fecha_inicio payload)
                  (ReservaCreate.fecha_fin payload) in
  fst (crear_reserva payload st) = inr (Created n "Creado")
  /\ (forall rid, Dict.get rid (reservas st') =
                  if rid =? n then Some reserva else Dict.get rid (reservas st))
  /\ salas st' = salas st
  /\ next_sala_id st' = next_sala_id st
  /\ next_reserva_id st' = n + 1.
Proof.
  intros Hmem Hi Hf Hle st' n reserva. subst st' n reserva.
  rewrite crear_reserva_eq, Hmem, Hi, Hf, Hle. simpl. repeat split.
  intros rid. destruct (Z.eqb_spec rid (next_reserva_id st)) as [->|Hne].
  - apply DictFacts.get_set_same.
  - now apply DictFacts.get_set_other.
Qed.

Lemma crear_reserva_frame_witness :
  let payload := ReservaCreate.mk 2 "  Eva" "2026-02-01T08:00:00+02:00"
                                  "2026-02-01T08:30:00+01:00" in
  fst (crear_reserva payload example_state) = inr (Created 4 "Creado")
  /\ Dict.get 4 (reservas (snd (crear_reserva payload example_state))) =
       Some (ReservaOut.mk 4 2 "Eva" "2026-02-01T08:00:00+02:00"
                           "2026-02-01T08:30:00+01:00").
Proof.
  intros payload.
  pose proof (crear_reserva_frame example_state payload
           (Datetime.mk_datetime 2026 2 1 8 0 0 0 (Some 7200000000))
           (Datetime.mk_datetime 2026 2 1 8 30 0 0 (Some 3600000000))
           eq_refl eq_refl eq_refl eq_refl) as [H1 [H2 _]].
  split; [exact H1 | exact (H2 4)].
Defined.

(** X14. Cancelling a stored reservation answers 204, removes that key
    and nothing else (every other key, the rooms and both counters are as
    before), and cancelling it a second time raises the 404. *)
Theorem cancelar_reserva_removes (st : State) (reserva_id : Z) :
  Dict.mem reserva_id (reservas st) = true ->
  let st' := snd (cancelar_reserva reserva_id st) in
  fst (cancelar_reserva reserva_id st) = inr NoContent
  /\ (forall rid, Dict.get rid (reservas st') =
                  if rid =? reserva_id then None else Dict.get rid (reservas st))
  /\ salas st' = salas st
  /\ next_sala_id st' = next_sala_id st
  /\ next_reserva_id st' = next_reserva_id st
  /\ cancelar_reserva reserva_id st' =
       (inl (HTTPException 404 msg_reserva_no_encontrada), st').
Proof.
  intros Hmem st'. subst st'. rewrite cancelar_reserva_eq, Hmem. simpl.
  repeat split.
  - intros rid. destruct (Z.eqb_spec rid reserva_id) as [->|Hne].
    + apply DictFacts.get_remove_same.
    + now apply DictFacts.get_remove_other.
  - rewrite cancelar_reserva_eq. simpl.
    now rewrite EntryFacts.mem_remove_same.
Qed.

Lemma cancelar_reserva_removes_witness :
  fst (cancelar_reserva 2 example_state) = inr NoContent
  /\ Dict.get 2 (reservas (snd (cancelar_reserva 2 example_state))) = None
  /\ Dict.get 3 (reservas (snd (cancelar_reserva 2 example_state))) =
       Dict.get 3 (reservas example_state).
Proof.
  pose proof (cancelar_reserva_removes example_state 2 eq_refl) as [H1 [H2 _]].
  split; [exact H1|]. split; [exact (H2 2) | exact (H2 3)].
Defined.

(** X15. Patching twice with the same body is the same as patching once:
    when [modificar_reserva] succeeded, repeating the call on the state it
    left gives the same answer and leaves that state unchanged. *)
Theorem modificar_reserva_idempotent
  (st : State) (reserva_id : Z) (payload : ReservaPatch.t) (resp : response) :
  fst (modificar_reserva reserva_id payload st) = inr resp ->
  modificar_reserva reserva_id payload
                    (snd (modificar_reserva reserva_id payload st)) =
    (inr resp, snd (modificar_reserva reserva_id payload st)).
Proof.
  rewrite modificar_reserva_eq.
  destruct (Dict.get reserva_id (reservas st)) as [reserva|]; [|discriminate].
  destruct (Datetime.fromisoformat (ReservaOut.fecha_inicio reserva)) eqn:Hi;
    [|discriminate].
  destruct (Datetime.fromisoformat (ReservaPatch.fecha_fin payload)) eqn:Hf;
    [|discriminate].
  destruct (Datetime.le _ _) as [[|]|] eqn:Hle; try discriminate.
  simpl. intros [= <-]. rewrite modificar_reserva_eq. simpl.
  rewrite DictFacts.get_set_same. simpl. rewrite Hi, Hf, Hle.
  unfold ReservaOut.set_fecha_fin. simpl.
  now rewrite EntryFacts.set_set.
Qed.

Lemma modificar_reserva_idempotent_witness :
  let payload := ReservaPatch.mk "2026-01-22T19:30:00" in
  let st' := snd (modificar_reserva 3 payload example_state) in
  modificar_reserva 3 payload st' =
    (inr (Updated 3 "Actualizado" "2026-01-22T19:30:00"), st').
Proof.
  exact (modificar_reserva_idempotent example_state 3
           (ReservaPatch.mk "2026-01-22T19:30:00")
           (Updated 3 "Actualizado" "2026-01-22T19:30:00") eq_refl).
Defined.

(** ** Rooms *)

Lemma filter_deleted_sala (sala_id : Z) (d : Dict.dict ReservaOut.t) :
  filter (fun r => ReservaOut.sala_id r =? sala_id)
         (Dict.values
            (filter (fun kv => negb (ReservaOut.sala_id (snd kv) =? sala_id)) d))
  = [].
Proof.
  unfold Dict.values. induction d as [|[k r] d IH]; simpl; [reflexivity|].
  destruct (ReservaOut.sala_id r =? sala_id) eqn:Hr; simpl; [exact IH|].
  now rewrite Hr.
Qed.

Lemma filter_other_sala (sala_id other : Z) (d : Dict.dict ReservaOut.t) :
  other <> sala_id ->
  filter (fun r => ReservaOut.sala_id r =? other)
         (Dict.values
            (filter (fun kv => negb (ReservaOut.sala_id (snd kv) =? sala_id)) d))
  = filter (fun r => ReservaOut.sala_id r =? other) (Dict.values d).
Proof.
  intros Hne. unfold Dict.values.
  induction d as [|[k r] d IH]; simpl; [reflexivity|].
  destruct (Z.eqb_spec (ReservaOut.sala_id r) sala_id) as [Heq|Hneq]; simpl.
  - destruct (Z.eqb_spec (ReservaOut.sala_id r) other); [congruence | exact IH].
  - destruct (ReservaOut.sala_id r =? other); [now rewrite IH | exact IH].
Qed.

(** X16. Once [eliminar_sala] has deleted a stored room, that id is gone
    for every route: [obtener_sala] and a second [eliminar_sala] raise the
    404, the reservations filtered by it are the empty list, and
    [crear_reserva] for it raises the 400 of the unknown room whatever the
    rest of the body; none of these changes the state. *)
Theorem deleted_sala_is_gone (st : State) (sala_id : Z) :
  Dict.wf (reservas st) ->
  Dict.mem sala_id (salas st) = true ->
  let st' := snd (eliminar_sala sala_id st) in
  obtener_sala sala_id st' = (inl (HTTPException 404 msg_sala_no_encontrada), st')
  /\ eliminar_sala sala_id st' =
       (inl (HTTPException 404 msg_sala_no_encontrada), st')
  /\ historial_reservas (Some sala_id) st' = (inr (ReservaList []), st')
  /\ (forall nombre inicio fin,
        crear_reserva (ReservaCreate.mk sala_id nombre inicio fin) st' =
          (inl (HTTPException 400 msg_sala_id_no_existe), st')).
Proof.
  intros Hwf Hmem st'. subst st'. rewrite eliminar_sala_eq, Hmem by assumption.
  simpl. repeat split.
  - unfold obtener_sala. run_monad. now rewrite DictFacts.get_remove_same.
  - rewrite eliminar_sala_eq by (now apply DictFacts.wf_filter). simpl.
    now rewrite EntryFacts.mem_remove_same.
  - unfold historial_reservas. run_monad.
    now rewrite filter_deleted_sala.
  - intros nombre inicio fin. rewrite crear_reserva_eq. simpl.
    now rewrite EntryFacts.mem_remove_same.
Qed.

Lemma deleted_sala_is_gone_witness :
  let st' := snd (eliminar_sala 1 example_state) in
  historial_reservas (Some 1) st' = (inr (ReservaList []), st').
Proof.
  exact (proj1 (proj2 (proj2
    (deleted_sala_is_gone example_state 1
       (inv_wf_reservas _ (Inv_run example_requests)) eq_refl)))).
Defined.

(** X17. Deleting a room does not disturb the reservations of another
    room: the list filtered by any other room id is the same before and
    after. *)
Theorem eliminar_sala_other_rooms (st : State) (sala_id other : Z) :
  Dict.wf (reservas st) ->
  other <> sala_id ->
  fst (historial_reservas (Some other) (snd (eliminar_sala sala_id st))) =
  fst (historial_reservas (Some other) st).
Proof.
  intros Hwf Hne. rewrite eliminar_sala_eq by assumption.
  destruct (Dict.mem _ _); simpl; [|reflexivity].
  now rewrite filter_other_sala.
Qed.

Lemma eliminar_sala_other_rooms_witness :
  fst (historial_reservas (Some 2) (snd (eliminar_sala 1 example_state))) =
  inr (ReservaList
         [ReservaOut.mk 2 2 "Luis" "2026-01-21T09:00:00" "2026-01-21T09:30:00"]).
Proof.
  rewrite (eliminar_sala_other_rooms example_state 1 2
             (inv_wf_reservas _ (Inv_run example_requests))); [reflexivity|].
  discriminate.
Defined.

(** ** Reading *)

(** X18. The three GET routes play no part in the state: a run reaches
    the same state as the run with its GET requests left out. *)
Theorem get_requests_are_transparent (rs : list request) :
  run rs = run (filter (fun r => negb (is_get r)) rs).
Proof.
  unfold run. generalize initial as st.
  induction rs as [|r rs IH]; intros st; simpl; [reflexivity|].
  destruct r as [|sid|p|sid|p|sid|rid p|rid]; simpl; try apply IH.
  unfold serve at 2. simpl. rewrite (proj1 (proj2 (read_only_state st))).
  apply IH.
Qed.

(** ** Order of the keys *)

Lemma sorted_snoc (l : list Z) (n : Z) :
  StronglySorted Z.lt l -> Forall (fun k => k < n) l ->
  StronglySorted Z.lt (l ++ [n]).
Proof.
  induction 1 as [|k l Hs IH Hk]; intros Hn; simpl.
  - repeat constructor.
  - inversion Hn as [|? ? Hkn Hl]; subst. constructor; [auto|].
    apply Forall_app. split; [assumption | now repeat constructor].
Qed.

Lemma sorted_keys_filter {V} (p : Z * V -> bool) (d : Dict.dict V) :
  StronglySorted Z.lt (map fst d) ->
  StronglySorted Z.lt (map fst (filter p d)).
Proof.
  induction d as [|kv d IH]; simpl; [auto|].
  intros Hs. inversion Hs as [|? ? Hs' Hk]; subst.
  destruct (p kv); simpl; [|auto]. constructor; [auto|].
  rewrite Forall_forall in *. intros k Hin. apply Hk.
  apply in_map_iff in Hin as [x [Hx Hin]]. apply filter_In in Hin as [Hin _].
  apply in_map_iff. now exists x.
Qed.

Lemma keys_below {V} (Q : Z * V -> Prop) (lo n : Z) (d : Dict.dict V) :
  Forall (fun kv => Q kv /\ lo <= fst kv < n) d ->
  Forall (fun k => k < n) (map fst d).
Proof.
  rewrite !Forall_forall. intros H k Hin.
  apply in_map_iff in Hin as [kv [<- Hin]]. specialize (H kv Hin). lia.
Qed.

Lemma keys_increasing_serve st r :
  Inv st -> Consistent st -> keys_increasing st -> keys_increasing (serve st r).
Proof.
  intros HI HC [Hs Hr]. unfold serve, keys_increasing.
  destruct r as [|sid|p|sid|p|sid|rid p|rid]; simpl.
  - now split.
  - rewrite (proj1 (proj2 (read_only_state st))). now split.
  - destruct (SalaCreate.valid p); simpl; [|now split].
    rewrite crear_sala_eq. destruct (existsb _ _); simpl; [now split|].
    split; [|assumption].
    rewrite DictFacts.keys_set_new
      by exact (EntryFacts.fresh_key _ _ _ _ (con_ids_salas _ HC)).
    apply sorted_snoc; [assumption|].
    exact (keys_below _ _ _ _ (con_ids_salas _ HC)).
  - rewrite eliminar_sala_eq by apply HI.
    destruct (Dict.mem _ _); simpl; [|now split].
    split; now apply sorted_keys_filter.
  - destruct (ReservaCreate.valid p); simpl; [|now split].
    rewrite crear_reserva_eq. destruct (negb _); simpl; [now split|].
    destruct (Datetime.fromisoformat _); [|now split].
    destruct (Datetime.fromisoformat _); [|now split].
    destruct (Datetime.le _ _) as [[|]|]; simpl; try now split.
    split; [assumption|].
    rewrite DictFacts.keys_set_new
      by exact (EntryFacts.fresh_key _ _ _ _ (con_ids_reservas _ HC)).
    apply sorted_snoc; [assumption|].
    exact (keys_below _ _ _ _ (con_ids_reservas _ HC)).
  - now split.
  - rewrite modificar_reserva_eq.
    destruct (Dict.get rid (reservas st)) eqn:Hget; [|now split].
    destruct (Datetime.fromisoformat _); [|now split].
    destruct (Datetime.fromisoformat _); [|now split].
    destruct (Datetime.le _ _) as [[|]|]; simpl; try now split.
    split; [assumption|]. rewrite DictFacts.keys_set_mem; [assumption|].
    destruct (Dict.mem rid (reservas st)) eqn:Hmem; [reflexivity|].
    apply DictFacts.get_none_iff in Hmem. congruence.
  - rewrite cancelar_reserva_eq. destruct (Dict.mem _ _); simpl; [|now split].
    split; [assumption | now apply sorted_keys_filter].
Qed.

Lemma keys_increasing_fold rs : forall st,
  Inv st -> Consistent st -> keys_increasing st ->
  keys_increasing (fold_left serve rs st).
Proof.
  induction rs as [|r rs IH]; intros st HI HC H; simpl; [exact H|].
  apply IH; [now apply Inv_serve | now apply Consistent_serve |
             now apply keys_increasing_serve].
Qed.

(** X19. In every reachable state the rooms and the reservations are
    held, and so listed, in strictly increasing order of their ids. *)
Theorem listed_by_increasing_id (rs : list request) :
  StronglySorted Z.lt (map SalaOut.id (Dict.values (salas (run rs))))
  /\ StronglySorted Z.lt (map ReservaOut.id (Dict.values (reservas (run rs)))).
Proof.
  assert (Hk : keys_increasing (run rs)).
  { apply keys_increasing_fold;
      [apply Inv_initial | apply Consistent_initial | split; constructor]. }
  destruct Hk as [Hs Hr].
  pose proof (con_ids_salas _ (Consistent_run rs)) as Is.
  pose proof (con_ids_reservas _ (Consistent_run rs)) as Ir.
  unfold Dict.values. rewrite !map_map. split.
  - erewrite map_ext_in; [exact Hs|]. intros kv Hin.
    rewrite Forall_forall in Is. exact (proj1 (Is kv Hin)).
  - erewrite map_ext_in; [exact Hr|]. intros kv Hin.
    rewrite Forall_forall in Ir. exact (proj1 (Ir kv Hin)).
Qed.

(** ** All outcomes of a patch *)

(** X20. In a reachable state, for a stored reservation the stored start
    parses, and the answer of [modificar_reserva] is decided by the new
    end alone: the 400 of the invalid date when it does not parse, an
    uncaught [TypeError] when it cannot be ordered against the start (one
    carries a UTC offset, the other none), the 400 of the interval when it
    is not after the start, and otherwise 200 with the key and the new end
    as sent. *)
Theorem modificar_reserva_outcomes
  (rs : list request) (reserva_id : Z) (reserva : ReservaOut.t)
  (payload : ReservaPatch.t) :
  Dict.get reserva_id (reservas (run rs)) = Some reserva ->
  exists inicio,
    Datetime.fromisoformat (ReservaOut.fecha_inicio reserva) = Some inicio
    /\ fst (modificar_reserva reserva_id payload (run rs)) =
         match Datetime.fromisoformat (ReservaPatch.fecha_fin payload) with
         | None => inl (HTTPException 400 msg_fecha_invalida)
         | Some nueva_fin =>
             match Datetime.le nueva_fin inicio with
             | None => inl TypeError
             | Some true => inl (HTTPException 400 msg_fecha_fin)
             | Some false =>
                 inr (Updated reserva_id "Actualizado"
                              (ReservaPatch.fecha_fin payload))
             end
         end.
Proof.
  intros Hget.
  pose proof (ValuesFacts.Forall_values_get _ _ _ _
                (inv_fechas _ (Inv_run rs)) Hget) as [Hi _].
  pose proof (con_ids_reservas _ (Consistent_run rs)) as Hids.
  rewrite Forall_forall in Hids.
  pose proof (proj1 (Hids _ (DictFacts.get_In _ _ _ Hget))) as Hid.
  simpl in Hid. unfold parses in Hi.
  destruct (Datetime.fromisoformat (ReservaOut.fecha_inicio reserva))
    as [inicio|] eqn:Hini; [|contradiction].
  exists inicio. split; [reflexivity|].
  rewrite modificar_reserva_eq, Hget, Hini.
  destruct (Datetime.fromisoformat (ReservaPatch.fecha_fin payload));
    [|reflexivity].
  destruct (Datetime.le _ _) as [[|]|]; simpl; try reflexivity.
  now rewrite Hid.
Qed.

Lemma modificar_reserva_outcomes_witness :
  fst (modificar_reserva 2 (ReservaPatch.mk "2026-01-21T10:00:00+00:00")
                         example_state) = inl TypeError.
Proof.
  destruct (modificar_reserva_outcomes example_requests 2
              (ReservaOut.mk 2 2 "Luis" "2026-01-21T09:00:00" "2026-01-21T09:30:00")
              (ReservaPatch.mk "2026-01-21T10:00:00+00:00") eq_refl)
    as [inicio [Hi H]].
  injection Hi as <-. exact H.
Defined.
